(** * can_peak_gateway: the PEAK Ethernet gateway codec

    A shallow embedding of [src/can_peak_gateway/__init__.py]: the wire
    header ([MessageHeader], a packed big-endian ctypes structure), the
    buffered socket reader ([SocketReader]), the encode path
    ([BusPeakGateway.send]) and the decode path
    ([BusPeakGateway._recv_internal]), followed by the properties of the
    codec that the specification states. *)

From Stdlib Require Import String Ascii HexString DecimalString ZArith QArith_base Bool List Lia.
From coqutil Require Import Byte Word.LittleEndianList.
Import ListNotations.
Local Open Scope Z_scope.

(** ** Bytes and big-endian integers *)

(** [int.to_bytes(n, "big")] on the low [8 * n] bits of [z], and its
    inverse.  A ctypes field of a [BigEndianStructure] is stored this way. *)
Definition be_bytes (n : nat) (z : Z) : list byte := rev (le_split n z).
Definition be_int (bs : list byte) : Z := le_combine (rev bs).

(** What a ctypes unsigned field of [w] bits keeps of a Python int: the
    setter masks, it never raises on overflow. *)
Definition c_uint (w : Z) (z : Z) : Z := z mod 2 ^ w.

(** Python's [bool(n)] on an int. *)
Definition py_bool (z : Z) : bool := negb (z =? 0).

(** Python's [x in {a, b, ...}] on ints. *)
Definition py_in (x : Z) (s : list Z) : bool := existsb (Z.eqb x) s.

(** Python's [hex]. *)
Definition hex (z : Z) : string := HexString.of_Z z.

(** ** Constants (lines 11-29) *)

Module MessageType.
Definition CAN_FRAME : Z := 0x80.
Definition CAN_FRAME_CRC : Z := 0x81.
Definition CAN_FD_FRAME : Z := 0x90.
Definition CAN_FD_FRAME_CRC : Z := 0x91.
End MessageType.

Definition FLAG_REMOTE_REQUEST : Z := 0x01.
Definition FLAG_EXTENDED_IDENTIFIER : Z := 0x02.
Definition FLAG_EXTENDED_DATA_LENGTH : Z := 0x10.
Definition FLAG_BITRATE_SWITCH : Z := 0x30.
Definition FLAG_ERROR_STATE : Z := 0x40.

Definition MASK_CAN_ID : Z := Z.shiftl 1 28 - 1.
Definition MASK_CAN_ID_REMOTE_REQUEST : Z := Z.shiftl 1 30.
Definition MASK_CAN_ID_EXTENDED_FRAME : Z := Z.shiftl 1 31.

Definition FETCH_SIZE_STANDARD_FRAME : Z := 8.
Definition FETCH_SIZE_OPTIONAL_CRC : Z := 4.

(** ** MessageHeader (lines 32-79) *)

Inductive ctype := c_uint8 | c_uint16 | c_uint32 | c_uint64.

Definition ctype_size (t : ctype) : nat :=
  match t with
  | c_uint8 => 1 | c_uint16 => 2 | c_uint32 => 4 | c_uint64 => 8
  end%nat.

(** The [_fields_] table; [_pack_ = 1] leaves no padding between fields. *)
Definition _fields_ : list (string * ctype) :=
  [ ("packet_size"%string, c_uint16);
    ("frame_kind"%string, c_uint16);
    ("unused_tag"%string, c_uint64);
    ("timestamp_low"%string, c_uint32);
    ("timestamp_high"%string, c_uint32);
    ("channel"%string, c_uint8);
    ("frame_size"%string, c_uint8);
    ("frame_flags"%string, c_uint16);
    ("frame_id_raw"%string, c_uint32) ].

(** [sizeof(MessageHeader)]: the packed fields add up to 28 bytes. *)
Definition sizeof_MessageHeader : nat :=
  fold_right (fun f acc => (ctype_size (snd f) + acc)%nat) 0%nat _fields_.

Record MessageHeader : Type := mkMessageHeader {
  packet_size : Z;
  frame_kind : Z;
  unused_tag : Z;
  timestamp_low : Z;
  timestamp_high : Z;
  channel : Z;
  frame_size : Z;
  frame_flags : Z;
  frame_id_raw : Z
}.

(** Field assignments, [header.f = v]: each stores [v] masked to the width
    of the field. *)
Definition set_packet_size (v : Z) (h : MessageHeader) : MessageHeader :=
  mkMessageHeader (c_uint 16 v) (frame_kind h) (unused_tag h) (timestamp_low h)
    (timestamp_high h) (channel h) (frame_size h) (frame_flags h) (frame_id_raw h).
Definition set_frame_kind (v : Z) (h : MessageHeader) : MessageHeader :=
  mkMessageHeader (packet_size h) (c_uint 16 v) (unused_tag h) (timestamp_low h)
    (timestamp_high h) (channel h) (frame_size h) (frame_flags h) (frame_id_raw h).
Definition set_frame_flags (v : Z) (h : MessageHeader) : MessageHeader :=
  mkMessageHeader (packet_size h) (frame_kind h) (unused_tag h) (timestamp_low h)
    (timestamp_high h) (channel h) (frame_size h) (c_uint 16 v) (frame_id_raw h).
Definition set_frame_id_raw (v : Z) (h : MessageHeader) : MessageHeader :=
  mkMessageHeader (packet_size h) (frame_kind h) (unused_tag h) (timestamp_low h)
    (timestamp_high h) (channel h) (frame_size h) (frame_flags h) (c_uint 32 v).

(** Every field holds a value of its width. *)
Definition header_wf (h : MessageHeader) : Prop :=
  0 <= packet_size h < 2 ^ 16 /\ 0 <= frame_kind h < 2 ^ 16 /\
  0 <= unused_tag h < 2 ^ 64 /\ 0 <= timestamp_low h < 2 ^ 32 /\
  0 <= timestamp_high h < 2 ^ 32 /\ 0 <= channel h < 2 ^ 8 /\
  0 <= frame_size h < 2 ^ 8 /\ 0 <= frame_flags h < 2 ^ 16 /\
  0 <= frame_id_raw h < 2 ^ 32.

(** [bytearray(header)]: the fields in declaration order, big-endian. *)
Definition header_bytes (h : MessageHeader) : list byte :=
  be_bytes (ctype_size c_uint16) (packet_size h) ++
  be_bytes (ctype_size c_uint16) (frame_kind h) ++
  be_bytes (ctype_size c_uint64) (unused_tag h) ++
  be_bytes (ctype_size c_uint32) (timestamp_low h) ++
  be_bytes (ctype_size c_uint32) (timestamp_high h) ++
  be_bytes (ctype_size c_uint8) (channel h) ++
  be_bytes (ctype_size c_uint8) (frame_size h) ++
  be_bytes (ctype_size c_uint16) (frame_flags h) ++
  be_bytes (ctype_size c_uint32) (frame_id_raw h).

(** The field of type [t] at byte offset [off] of a buffer. *)
Definition field_at (off : nat) (t : ctype) (buf : list byte) : Z :=
  be_int (firstn (ctype_size t) (skipn off buf)).

(** The fields of a buffer that holds at least [sizeof(MessageHeader)]
    bytes; bytes past the structure are not looked at. *)
Definition header_of_bytes (buf : list byte) : MessageHeader :=
  {| packet_size := field_at 0 c_uint16 buf;
     frame_kind := field_at 2 c_uint16 buf;
     unused_tag := field_at 4 c_uint64 buf;
     timestamp_low := field_at 12 c_uint32 buf;
     timestamp_high := field_at 16 c_uint32 buf;
     channel := field_at 20 c_uint8 buf;
     frame_size := field_at 21 c_uint8 buf;
     frame_flags := field_at 22 c_uint16 buf;
     frame_id_raw := field_at 24 c_uint32 buf |}.

(** The properties of the header. *)
Definition flag_remote_request_frame (h : MessageHeader) : bool :=
  py_bool (Z.land (frame_flags h) FLAG_REMOTE_REQUEST).
Definition flag_extended_data_length (h : MessageHeader) : bool :=
  py_bool (Z.land (frame_flags h) FLAG_BITRATE_SWITCH).
Definition flag_activated_bitrate_switch (h : MessageHeader) : bool :=
  py_bool (Z.land (frame_flags h) FLAG_BITRATE_SWITCH).
Definition flag_error_state_indicator (h : MessageHeader) : bool :=
  py_bool (Z.land (frame_flags h) FLAG_ERROR_STATE).
Definition frame_extended_id (h : MessageHeader) : bool :=
  py_bool (Z.land (frame_id_raw h) MASK_CAN_ID_EXTENDED_FRAME).
Definition frame_id (h : MessageHeader) : Z :=
  Z.land (frame_id_raw h) MASK_CAN_ID.

(** Python's [str] on an int. *)
Definition str (z : Z) : string := NilZero.string_of_int (Z.to_int z).

(** [MessageHeader.__repr__] (lines 70-79). *)
Definition __repr__ (h : MessageHeader) : string :=
  let components :=
    [("ID=" ++ hex (frame_id h))%string; ("DLC=" ++ str (frame_size h))%string] in
  let components :=
    if frame_extended_id h then components ++ ["EXTENDED"%string] else components in
  String.concat " " components.

(** ** The frame of the bus abstraction

    [can.Message], restricted to the attributes the gateway reads or
    writes.  [dlc] and [data] are separate attributes: nothing in the
    gateway ties the one to the length of the other. *)

Record Message : Type := mkMessage {
  timestamp : Q;
  arbitration_id : Z;
  is_extended_id : bool;
  is_remote_frame : bool;
  is_error_frame : bool;
  is_fd : bool;
  bitrate_switch : bool;
  dlc : Z;
  data : list byte
}.

(** [Message()]: the defaults of the constructor. *)
Definition Message_default : Message :=
  {| timestamp := 0%Q; arbitration_id := 0; is_extended_id := true;
     is_remote_frame := false; is_error_frame := false; is_fd := false;
     bitrate_switch := false; dlc := 0; data := [] |}.

Definition set_timestamp (v : Q) (m : Message) : Message :=
  mkMessage v (arbitration_id m) (is_extended_id m) (is_remote_frame m)
    (is_error_frame m) (is_fd m) (bitrate_switch m) (dlc m) (data m).
Definition set_arbitration_id (v : Z) (m : Message) : Message :=
  mkMessage (timestamp m) v (is_extended_id m) (is_remote_frame m)
    (is_error_frame m) (is_fd m) (bitrate_switch m) (dlc m) (data m).
Definition set_is_extended_id (v : bool) (m : Message) : Message :=
  mkMessage (timestamp m) (arbitration_id m) v (is_remote_frame m)
    (is_error_frame m) (is_fd m) (bitrate_switch m) (dlc m) (data m).
Definition set_is_remote_frame (v : bool) (m : Message) : Message :=
  mkMessage (timestamp m) (arbitration_id m) (is_extended_id m) v
    (is_error_frame m) (is_fd m) (bitrate_switch m) (dlc m) (data m).
Definition set_is_error_frame (v : bool) (m : Message) : Message :=
  mkMessage (timestamp m) (arbitration_id m) (is_extended_id m) (is_remote_frame m)
    v (is_fd m) (bitrate_switch m) (dlc m) (data m).
Definition set_is_fd (v : bool) (m : Message) : Message :=
  mkMessage (timestamp m) (arbitration_id m) (is_extended_id m) (is_remote_frame m)
    (is_error_frame m) v (bitrate_switch m) (dlc m) (data m).
Definition set_bitrate_switch (v : bool) (m : Message) : Message :=
  mkMessage (timestamp m) (arbitration_id m) (is_extended_id m) (is_remote_frame m)
    (is_error_frame m) (is_fd m) v (dlc m) (data m).
Definition set_dlc (v : Z) (m : Message) : Message :=
  mkMessage (timestamp m) (arbitration_id m) (is_extended_id m) (is_remote_frame m)
    (is_error_frame m) (is_fd m) (bitrate_switch m) v (data m).
Definition set_data (v : list byte) (m : Message) : Message :=
  mkMessage (timestamp m) (arbitration_id m) (is_extended_id m) (is_remote_frame m)
    (is_error_frame m) (is_fd m) (bitrate_switch m) (dlc m) v.

(** ** Outcomes of a call *)

Inductive exn := TimeoutError | BlockingIOError | ValueError | OSError.

(** A call returns a value, raises, or never comes back (a receive
    without timeout on a socket that gets no datagram). *)
Inductive outcome (A : Type) : Type :=
| Returns (a : A)
| Raises (e : exn)
| Blocks.
Arguments Returns {A} a.
Arguments Raises {A} e.
Arguments Blocks {A}.

(** [MessageHeader.from_buffer_copy]: a buffer shorter than the structure
    is refused with [ValueError]. *)
Definition from_buffer_copy (buf : list byte) : outcome MessageHeader :=
  if (length buf <? sizeof_MessageHeader)%nat then Raises ValueError
  else Returns (header_of_bytes buf).

(** ** The receive socket

    What the datagram socket will deliver, in order: a datagram arrives, or
    one timeout period passes without any. *)
Inductive net_event := Arrives (d : list byte) | Quiet.

(** The values [settimeout] takes: [None], or a number of seconds that is
    not negative. *)
Definition timeout_in_domain (timeout : option Q) : Prop :=
  match timeout with
  | None => True
  | Some q => (0 <= q)%Q
  end.

(** [settimeout(0)] puts the socket in non-blocking mode. *)
Definition nonblocking (q : Q) : bool := (Qnum q =? 0)%Z.

(** What a receive that finds no datagram raises: [BlockingIOError] in
    non-blocking mode, [TimeoutError] when the timeout has passed. *)
Definition recv_failure (q : Q) : exn :=
  if nonblocking q then BlockingIOError else TimeoutError.

(** [settimeout(timeout); recv(bufsize)]: the next datagram, cut to
    [bufsize] bytes (the rest of a datagram is lost).  A datagram that is
    there is returned in every mode.  On [Quiet] (no datagram at the time
    of a non-blocking call, none within the period of a timed one) the call
    raises [recv_failure]; with [timeout = None] it waits through quiet
    periods.  A negative number is refused by [settimeout] itself: it is
    outside [timeout_in_domain], the timeouts a caller may pass. *)
Fixpoint socket_recv (bufsize : nat) (timeout : option Q) (net : list net_event)
  : outcome (list byte) * list net_event :=
  match net with
  | [] =>
      (match timeout with Some q => Raises (recv_failure q) | None => Blocks end, [])
  | Arrives d :: net' => (Returns (firstn bufsize d), net')
  | Quiet :: net' =>
      match timeout with
      | Some q => (Raises (recv_failure q), net')
      | None => socket_recv bufsize timeout net'
      end
  end.

(** The bytes the socket still has to deliver, each datagram cut to the
    1024 bytes a receive of the reader takes. *)
Fixpoint stream (net : list net_event) : list byte :=
  match net with
  | [] => []
  | Arrives d :: net' => firstn 1024 d ++ stream net'
  | Quiet :: net' => stream net'
  end.

(** ** SocketReader (lines 82-96) *)

Record SocketReader : Type := mkSocketReader {
  _socket : list net_event;
  _buffer : list byte
}.

(** [SocketReader.read]: sizes are byte counts. *)
Definition read (size : nat) (timeout : option Q) (self : SocketReader)
  : outcome (list byte) * SocketReader :=
  if (length (_buffer self) <? size)%nat then
    match socket_recv 1024 timeout (_socket self) with
    | (Returns data, net') =>
        let buffer := _buffer self ++ data in
        (Returns (firstn size buffer), mkSocketReader net' (skipn size buffer))
    | (Raises e, net') => (Raises e, mkSocketReader net' (_buffer self))
    | (Blocks, net') => (Blocks, mkSocketReader net' (_buffer self))
    end
  else
    (Returns (firstn size (_buffer self)),
     mkSocketReader (_socket self) (skipn size (_buffer self))).

(** ** BusPeakGateway (lines 99-195) *)

(** The gateway and what surrounds a call: the datagrams written to the
    send socket, the reader over the receive socket, and the records of the
    [logging] module. *)
Record BusPeakGateway : Type := mkBusPeakGateway {
  _send_socket : list (list byte);
  _recv_buffer : SocketReader;
  logging : list string
}.

(** Calls on the gateway: state passing with outcomes. *)
Definition M (A : Type) : Type := BusPeakGateway -> outcome A * BusPeakGateway.

Definition ret {A} (a : A) : M A := fun self => (Returns a, self).

Definition bind {A B} (m : M A) (k : A -> M B) : M B :=
  fun self =>
    match m self with
    | (Returns a, self') => k a self'
    | (Raises e, self') => (Raises e, self')
    | (Blocks, self') => (Blocks, self')
    end.

Notation "x <- m ;; k" := (bind m (fun x => k))
  (at level 61, m at next level, right associativity).

Definition lift {A} (o : outcome A) : M A := fun self => (o, self).

(** [try: body / except TimeoutError: handler], then [k] on the value of
    the body. *)
Definition try_except_TimeoutError {A B} (body : M A) (handler : M B) (k : A -> M B)
  : M B :=
  fun self =>
    match body self with
    | (Returns a, self') => k a self'
    | (Raises TimeoutError, self') => handler self'
    | (Raises e, self') => (Raises e, self')
    | (Blocks, self') => (Blocks, self')
    end.

(** [self._recv_buffer.read(size, timeout)] *)
Definition recv_buffer_read (size : nat) (timeout : option Q) : M (list byte) :=
  fun self =>
    let (r, reader) := read size timeout (_recv_buffer self) in
    (r, mkBusPeakGateway (_send_socket self) reader (logging self)).

(** [logging.warning(msg)] *)
Definition logging_warning (msg : string) : M unit :=
  fun self =>
    (Returns tt,
     mkBusPeakGateway (_send_socket self) (_recv_buffer self) (logging self ++ [msg])).

(** The largest payload of a UDP datagram over IPv4, in bytes. *)
Definition UDP_PAYLOAD_MAX : Z := 65507.

(** [self._send_socket.send(frame)]: one datagram; a frame longer than a
    datagram can be is refused with [OSError] (message too long) and
    nothing is written. *)
Definition send_socket_send (frame : list byte) : M unit :=
  fun self =>
    if (UDP_PAYLOAD_MAX <? Z.of_nat (length frame))%Z then (Raises OSError, self)
    else
      (Returns tt,
       mkBusPeakGateway (_send_socket self ++ [frame]) (_recv_buffer self) (logging self)).

(** *** send (lines 116-156) *)

(** Lines 119-146: the header of the datagram. *)
Definition send_header (msg : Message) : MessageHeader :=
  let header :=
    {| packet_size := c_uint 16 (Z.of_nat sizeof_MessageHeader);
       frame_kind := 0;
       unused_tag := c_uint 64 0;
       timestamp_low := c_uint 32 0;
       timestamp_high := c_uint 32 0;
       channel := c_uint 8 0;
       frame_size := c_uint 8 (dlc msg);
       frame_flags := 0;
       frame_id_raw := c_uint 32 (arbitration_id msg) |} in
  let header :=
    if is_fd msg then
      let header := set_packet_size (packet_size header + dlc msg) header in
      set_frame_kind MessageType.CAN_FD_FRAME header
    else
      let header := set_packet_size (packet_size header + FETCH_SIZE_STANDARD_FRAME) header in
      let header := set_frame_kind MessageType.CAN_FRAME header in
      if is_remote_frame msg then
        let header := set_frame_flags (Z.lor (frame_flags header) FLAG_REMOTE_REQUEST) header in
        set_frame_id_raw (Z.lor (frame_id_raw header) MASK_CAN_ID_REMOTE_REQUEST) header
      else header in
  let header :=
    if is_extended_id msg
    then set_frame_flags (Z.lor (frame_flags header) FLAG_EXTENDED_IDENTIFIER) header
    else header in
  let header :=
    if is_error_frame msg
    then set_frame_flags (Z.lor (frame_flags header) FLAG_ERROR_STATE) header
    else header in
  let header :=
    if bitrate_switch msg
    then set_frame_flags (Z.lor (frame_flags header) FLAG_BITRATE_SWITCH) header
    else header in
  header.

(** Lines 149-154: the payload that follows the header.  For a classic
    frame, [data[: len(msg.data)] = msg.data] on a buffer of eight zero
    bytes: the slice assignment replaces the first [len(msg.data)] bytes
    (all eight when there are more) by [msg.data]. *)
Definition send_payload (msg : Message) : list byte :=
  if is_fd msg then data msg
  else
    let data0 := repeat Byte.x00 (Z.to_nat FETCH_SIZE_STANDARD_FRAME) in
    data msg ++ skipn (length (data msg)) data0.

(** Line 148-154: the datagram. *)
Definition send_frame (msg : Message) : list byte :=
  header_bytes (send_header msg) ++ send_payload msg.

Definition send (msg : Message) (timeout : option Q) : M unit :=
  send_socket_send (send_frame msg).

(** *** _recv_internal (lines 158-195) *)

(** Lines 183-195: the reads after the dispatch and the frame built from
    them.  [now] is the reading of [time.time()]. *)
Definition recv_frame (timeout : option Q) (now : Q) (header : MessageHeader)
    (fetch_crc : bool) (fetch_size : Z) (frame_size : Z) (message : Message)
  : M (option Message * bool) :=
  payload_data <- recv_buffer_read (Z.to_nat fetch_size) timeout ;;
  _ <- (if fetch_crc
        then crc_data <- recv_buffer_read (Z.to_nat FETCH_SIZE_OPTIONAL_CRC) timeout ;;
             ret tt
        else ret tt) ;;
  let message := set_timestamp now message in
  let message := set_arbitration_id (frame_id header) message in
  let message := set_is_extended_id (frame_extended_id header) message in
  let message := set_dlc frame_size message in
  let message := set_data (firstn (Z.to_nat frame_size) payload_data) message in
  ret (Some message, false).

(** Line 168: the set literal holds one element, the bitwise or of the two
    enumeration values. *)
Definition fetch_crc_of (header : MessageHeader) : bool :=
  py_in (frame_kind header)
    [Z.lor MessageType.CAN_FRAME_CRC MessageType.CAN_FD_FRAME_CRC].

(** Lines 168-195: what follows a parsed header. *)
Definition recv_dispatch (timeout : option Q) (now : Q) (message : Message)
    (header : MessageHeader) : M (option Message * bool) :=
  let fetch_crc := fetch_crc_of header in
  let fetch_size := FETCH_SIZE_STANDARD_FRAME in
  let frame_size := frame_size header in
  let frame := frame_kind header in
  if (frame =? MessageType.CAN_FRAME) || (frame =? MessageType.CAN_FRAME_CRC) then
    let message := set_is_remote_frame (flag_remote_request_frame header) message in
    recv_frame timeout now header fetch_crc fetch_size frame_size message
  else if (frame =? MessageType.CAN_FD_FRAME) || (frame =? MessageType.CAN_FD_FRAME_CRC) then
    let message := set_is_fd true message in
    let message := set_is_error_frame (flag_error_state_indicator header) message in
    let message := set_bitrate_switch (flag_activated_bitrate_switch header) message in
    let fetch_size := frame_size in
    recv_frame timeout now header fetch_crc fetch_size frame_size message
  else
    _ <- logging_warning ("unknown frame type received: " ++ hex frame)%string ;;
    ret (None, false).

Definition _recv_internal (timeout : option Q) (now : Q) : M (option Message * bool) :=
  let message := Message_default in
  try_except_TimeoutError
    (header_data <- recv_buffer_read sizeof_MessageHeader timeout ;;
     lift (from_buffer_copy header_data))
    (ret (None, false))
    (recv_dispatch timeout now message).

(** ** Vocabulary of the statements *)

(** A gateway, by its parts. *)
Definition gateway (sent : list (list byte)) (net : list net_event) (buf : list byte)
    (log : list string) : BusPeakGateway :=
  mkBusPeakGateway sent (mkSocketReader net buf) log.

(** The frame that lines 189-193 build. *)
Definition built_message (now : Q) (header : MessageHeader) (frame_size : Z)
    (payload_data : list byte) (message : Message) : Message :=
  set_data (firstn (Z.to_nat frame_size) payload_data)
    (set_dlc frame_size
       (set_is_extended_id (frame_extended_id header)
          (set_arbitration_id (frame_id header) (set_timestamp now message)))).

(** Number of trailer bytes the decode path reads. *)
Definition crc_size (fetch_crc : bool) : nat :=
  if fetch_crc then Z.to_nat FETCH_SIZE_OPTIONAL_CRC else 0%nat.

(** The four kinds of frame the decode path knows. *)
Definition classic_kind (kind : Z) : bool :=
  (kind =? MessageType.CAN_FRAME) || (kind =? MessageType.CAN_FRAME_CRC).
Definition fd_kind (kind : Z) : bool :=
  (kind =? MessageType.CAN_FD_FRAME) || (kind =? MessageType.CAN_FD_FRAME_CRC).
Definition known_kind (kind : Z) : bool := classic_kind kind || fd_kind kind.

(** Line 169 and line 178: the payload size the decode path asks for. *)
Definition fetch_size_of (header : MessageHeader) : Z :=
  if fd_kind (frame_kind header) then frame_size header else FETCH_SIZE_STANDARD_FRAME.

(** Lines 172-178: the frame as the dispatch leaves it for a known kind. *)
Definition dispatched_message (header : MessageHeader) : Message :=
  if fd_kind (frame_kind header) then
    set_bitrate_switch (flag_activated_bitrate_switch header)
      (set_is_error_frame (flag_error_state_indicator header)
         (set_is_fd true Message_default))
  else set_is_remote_frame (flag_remote_request_frame header) Message_default.

(** A classic data frame whose [dlc] is the length of its data, as
    [Message(arbitration_id=..., data=...)] builds it. *)
Definition classic_frame (id : Z) (extended remote : bool) (payload : list byte)
  : Message :=
  {| timestamp := 0%Q; arbitration_id := id; is_extended_id := extended;
     is_remote_frame := remote; is_error_frame := false; is_fd := false;
     bitrate_switch := false; dlc := Z.of_nat (length payload); data := payload |}.

Definition bytes_of (l : list Z) : list byte := map byte.of_Z l.

(** The frames of scenarios A and C. *)
Definition scenario_A (extended : bool) : Message :=
  classic_frame 0x45 extended false (bytes_of [0x00; 0x01; 0x11; 0x01; 0x22]).
Definition scenario_C : Message := classic_frame 0x1FFFFFFF true true [].

(** A header as the gateway device sends it: datagram length, kind,
    payload size, flags and raw identifier, the other fields zero. *)
Definition device_header (total kind size flags id_raw : Z) : MessageHeader :=
  {| packet_size := total; frame_kind := kind; unused_tag := 0; timestamp_low := 0;
     timestamp_high := 0; channel := 0; frame_size := size; frame_flags := flags;
     frame_id_raw := id_raw |}.

(** The frames the codec carries without loss of data: an identifier of
    at most 28 bits and [dlc] data bytes, at most 8 for a classic frame and
    at most 255, what the frame_size byte holds, for an FD frame. *)
Definition carried (frame : Message) : Prop :=
  0 <= arbitration_id frame < 2 ^ 28 /\
  Z.of_nat (length (data frame)) = dlc frame /\
  dlc frame <= (if is_fd frame then 255 else 8).

(** The frame read back at time [now] from the datagram of a carried
    frame: extended_id is gone, remote_frame is kept on classic frames only,
    error_frame and bitrate_switch on FD frames only. *)
Definition echo (now : Q) (frame : Message) : Message :=
  {| timestamp := now;
     arbitration_id := arbitration_id frame;
     is_extended_id := false;
     is_remote_frame := negb (is_fd frame) && is_remote_frame frame;
     is_error_frame := is_fd frame && is_error_frame frame;
     is_fd := is_fd frame;
     bitrate_switch := is_fd frame && bitrate_switch frame;
     dlc := dlc frame;
     data := data frame |}.

(** An FD frame whose [dlc] is the length of its data. *)
Definition fd_frame (id : Z) (error brs : bool) (payload : list byte) : Message :=
  {| timestamp := 0%Q; arbitration_id := id; is_extended_id := false;
     is_remote_frame := false; is_error_frame := error; is_fd := true;
     bitrate_switch := brs; dlc := Z.of_nat (length payload); data := payload |}.

(** A timeout of some seconds, and the non-blocking mode. *)
Definition timed (timeout : option Q) : Prop :=
  exists q, timeout = Some q /\ nonblocking q = false.
Definition polling (timeout : option Q) : Prop :=
  exists q, timeout = Some q /\ nonblocking q = true.

(** What a call of [_recv_internal] can come to. *)
Inductive recv_outcome (timeout : option Q) (now : Q) (self : BusPeakGateway)
  : outcome (option Message * bool) -> BusPeakGateway -> Prop :=
| recv_frame_decoded header payload self' :
    header_wf header -> known_kind (frame_kind header) = true ->
    (length payload <= Z.to_nat (fetch_size_of header))%nat ->
    logging self' = logging self ->
    recv_outcome timeout now self
      (Returns (Some (built_message now header (frame_size header) payload
                        (dispatched_message header)), false)) self'
| recv_header_timeout self' :
    timed timeout -> logging self' = logging self ->
    recv_outcome timeout now self (Returns (None, false)) self'
| recv_unknown_kind kind self' :
    known_kind kind = false ->
    logging self' = logging self ++ [("unknown frame type received: " ++ hex kind)%string] ->
    recv_outcome timeout now self (Returns (None, false)) self'
| recv_short_header self' :
    logging self' = logging self ->
    recv_outcome timeout now self (Raises ValueError) self'
| recv_late_timeout self' :
    timed timeout -> logging self' = logging self ->
    recv_outcome timeout now self (Raises TimeoutError) self'
| recv_would_block self' :
    polling timeout -> logging self' = logging self ->
    recv_outcome timeout now self (Raises BlockingIOError) self'
| recv_blocks self' :
    timeout = None -> logging self' = logging self ->
    recv_outcome timeout now self Blocks self'.

(** * Properties *)

Example sizeof_MessageHeader_28 : sizeof_MessageHeader = 28%nat.
Proof. reflexivity. Qed.

(** ** Big-endian fields *)

Lemma length_be_bytes (n : nat) (z : Z) : length (be_bytes n z) = n.
Proof. unfold be_bytes. now rewrite length_rev, length_le_split. Qed.

Lemma be_int_be_bytes (n : nat) (z : Z) :
  be_int (be_bytes n z) = z mod 2 ^ (Z.of_nat n * 8).
Proof. unfold be_int, be_bytes. rewrite rev_involutive. apply le_combine_split. Qed.

Lemma be_int_range (bs : list byte) : 0 <= be_int bs < 2 ^ (8 * Z.of_nat (length bs)).
Proof.
  unfold be_int. rewrite <- (length_rev bs). apply le_combine_bound.
Qed.

Lemma skipn_app_length {A} (pre l : list A) (n : nat) :
  length pre = n -> skipn n (pre ++ l) = l.
Proof.
  intros <-. rewrite skipn_app, skipn_all, Nat.sub_diag. reflexivity.
Qed.

Lemma firstn_app_length {A} (pre l : list A) (n : nat) :
  length pre = n -> firstn n (pre ++ l) = pre.
Proof.
  intros <-. rewrite firstn_app, firstn_all, Nat.sub_diag. simpl. apply app_nil_r.
Qed.

Lemma field_at_skip (pre l : list byte) (off : nat) (t : ctype) :
  length pre = off -> field_at off t (pre ++ l) = field_at 0 t l.
Proof. intros H. unfold field_at. now rewrite (skipn_app_length pre l off H). Qed.

Lemma field_at_here (t : ctype) (z : Z) (l : list byte) :
  field_at 0 t (be_bytes (ctype_size t) z ++ l) = z mod 2 ^ (Z.of_nat (ctype_size t) * 8).
Proof.
  unfold field_at. rewrite skipn_O.
  rewrite firstn_app_length by apply length_be_bytes.
  apply be_int_be_bytes.
Qed.

(** A field that lies within the first [n] bytes does not see the rest. *)
Lemma field_at_firstn (n off : nat) (t : ctype) (buf : list byte) :
  (off + ctype_size t <= n)%nat -> field_at off t (firstn n buf) = field_at off t buf.
Proof.
  intros H. unfold field_at.
  rewrite skipn_firstn_comm, firstn_firstn.
  now rewrite Nat.min_l by lia.
Qed.

Lemma field_at_range (off : nat) (t : ctype) (buf : list byte) :
  0 <= field_at off t buf < 2 ^ (8 * Z.of_nat (ctype_size t)).
Proof.
  unfold field_at.
  pose proof (be_int_range (firstn (ctype_size t) (skipn off buf))) as [H0 H1].
  split; [exact H0|].
  eapply Z.lt_le_trans; [exact H1|].
  apply Z.pow_le_mono_r; [lia|].
  rewrite length_firstn. lia.
Qed.

(** ** The header and its bytes *)

Lemma length_header_bytes (h : MessageHeader) :
  length (header_bytes h) = sizeof_MessageHeader.
Proof.
  unfold header_bytes. rewrite !length_app, !length_be_bytes. reflexivity.
Qed.

Lemma header_of_bytes_firstn (n : nat) (buf : list byte) :
  (sizeof_MessageHeader <= n)%nat -> header_of_bytes (firstn n buf) = header_of_bytes buf.
Proof.
  intros H. change sizeof_MessageHeader with 28%nat in H.
  unfold header_of_bytes.
  rewrite !field_at_firstn by (simpl; lia). reflexivity.
Qed.

(** Whatever the bytes, the parsed fields hold values of their widths. *)
Lemma header_of_bytes_wf (buf : list byte) : header_wf (header_of_bytes buf).
Proof.
  unfold header_wf, header_of_bytes; simpl.
  repeat split;
    match goal with
    | |- context [field_at ?o ?t ?b] => pose proof (field_at_range o t b) as H; simpl in H; lia
    end.
Qed.

Ltac header_field pre :=
  match goal with
  | |- field_at _ _ (?hb ++ ?rest) = _ =>
      match hb with
      | header_bytes ?h =>
          let tl := fresh "tl" in
          evar (tl : list byte);
          replace (hb ++ rest) with (pre ++ tl)
            by (subst tl; unfold header_bytes; rewrite <- ?app_assoc; reflexivity);
          subst tl
      end
  end;
  rewrite field_at_skip by (rewrite ?length_app, ?length_be_bytes; reflexivity);
  rewrite field_at_here; apply Z.mod_small; simpl; lia.

(** Parsing the bytes of a header gives the header back, whatever follows
    them in the buffer. *)
Lemma header_of_bytes_header_bytes (h : MessageHeader) (rest : list byte) :
  header_wf h -> header_of_bytes (header_bytes h ++ rest) = h.
Proof.
  destruct h as [ps fk ut tl th ch fs ff fi]. unfold header_wf.
  cbn [packet_size frame_kind unused_tag timestamp_low timestamp_high channel
       frame_size frame_flags frame_id_raw].
  intros (H1 & H2 & H3 & H4 & H5 & H6 & H7 & H8 & H9).
  unfold header_of_bytes. f_equal.
  - unfold header_bytes; cbn [packet_size]. rewrite <- app_assoc.
    rewrite field_at_here. apply Z.mod_small; simpl; lia.
  - header_field (be_bytes 2 ps).
  - header_field (be_bytes 2 ps ++ be_bytes 2 fk).
  - header_field (be_bytes 2 ps ++ be_bytes 2 fk ++ be_bytes 8 ut).
  - header_field (be_bytes 2 ps ++ be_bytes 2 fk ++ be_bytes 8 ut ++ be_bytes 4 tl).
  - header_field (be_bytes 2 ps ++ be_bytes 2 fk ++ be_bytes 8 ut ++ be_bytes 4 tl
                  ++ be_bytes 4 th).
  - header_field (be_bytes 2 ps ++ be_bytes 2 fk ++ be_bytes 8 ut ++ be_bytes 4 tl
                  ++ be_bytes 4 th ++ be_bytes 1 ch).
  - header_field (be_bytes 2 ps ++ be_bytes 2 fk ++ be_bytes 8 ut ++ be_bytes 4 tl
                  ++ be_bytes 4 th ++ be_bytes 1 ch ++ be_bytes 1 fs).
  - header_field (be_bytes 2 ps ++ be_bytes 2 fk ++ be_bytes 8 ut ++ be_bytes 4 tl
                  ++ be_bytes 4 th ++ be_bytes 1 ch ++ be_bytes 1 fs ++ be_bytes 2 ff).
Qed.

(** ** The buffered reader *)

Lemma read_buffered (size : nat) (timeout : option Q) (net : list net_event)
    (buf : list byte) :
  (size <= length buf)%nat ->
  read size timeout (mkSocketReader net buf)
  = (Returns (firstn size buf), mkSocketReader net (skipn size buf)).
Proof.
  intros H. unfold read; cbn [_buffer _socket].
  destruct (Nat.ltb_spec (length buf) size); [lia | reflexivity].
Qed.

Lemma read_arrives (size : nat) (timeout : option Q) (d : list byte)
    (net : list net_event) (buf : list byte) :
  (length buf < size)%nat ->
  read size timeout (mkSocketReader (Arrives d :: net) buf)
  = (Returns (firstn size (buf ++ firstn 1024 d)),
     mkSocketReader net (skipn size (buf ++ firstn 1024 d))).
Proof.
  intros H. unfold read; cbn [_buffer _socket socket_recv].
  destruct (Nat.ltb_spec (length buf) size); [reflexivity | lia].
Qed.

(** The socket raises [TimeoutError] under a timeout of some seconds and
    [BlockingIOError] in non-blocking mode, nothing else; it blocks only
    without a timeout. *)
Lemma recv_failure_cases (q : Q) (e : exn) :
  recv_failure q = e ->
  (e = TimeoutError /\ timed (Some q)) \/ (e = BlockingIOError /\ polling (Some q)).
Proof.
  unfold recv_failure, timed, polling.
  destruct (nonblocking q) eqn:Hq; intros <-; [right | left]; eauto.
Qed.

Lemma socket_recv_raises (bufsize : nat) (timeout : option Q) (net net' : list net_event)
    (e : exn) :
  socket_recv bufsize timeout net = (Raises e, net') ->
  (e = TimeoutError /\ timed timeout) \/ (e = BlockingIOError /\ polling timeout).
Proof.
  revert net'. induction net as [|[d|] net IH]; intros net'; simpl.
  - destruct timeout as [q|]; intros H; inversion H.
    now apply recv_failure_cases.
  - intros H; inversion H.
  - destruct timeout as [q|]; [|apply IH].
    intros H; inversion H. now apply recv_failure_cases.
Qed.

Lemma socket_recv_blocks (bufsize : nat) (timeout : option Q) (net net' : list net_event) :
  socket_recv bufsize timeout net = (Blocks, net') -> timeout = None.
Proof.
  revert net'. induction net as [|[d|] net IH]; intros net'; simpl.
  - destruct timeout; intros H; inversion H. reflexivity.
  - intros H; inversion H.
  - destruct timeout; [intros H; inversion H | apply IH].
Qed.

Lemma socket_recv_length (bufsize : nat) (timeout : option Q) (net net' : list net_event)
    (d : list byte) :
  socket_recv bufsize timeout net = (Returns d, net') -> (length d <= bufsize)%nat.
Proof.
  revert net'. induction net as [|[d'|] net IH]; intros net'; simpl.
  - destruct timeout; intros H; inversion H.
  - intros H; inversion H. rewrite length_firstn. lia.
  - destruct timeout; [intros H; inversion H | apply IH].
Qed.

(** ** The decode path, step by step *)

Lemma recv_buffer_read_buffered (size : nat) (timeout : option Q) sent net buf log :
  (size <= length buf)%nat ->
  recv_buffer_read size timeout (gateway sent net buf log)
  = (Returns (firstn size buf), gateway sent net (skipn size buf) log).
Proof.
  intros H. unfold recv_buffer_read, gateway; cbn [_recv_buffer _send_socket logging].
  now rewrite read_buffered.
Qed.

Lemma recv_buffer_read_arrives (size : nat) (timeout : option Q) sent d net buf log :
  (length buf < size)%nat ->
  recv_buffer_read size timeout (gateway sent (Arrives d :: net) buf log)
  = (Returns (firstn size (buf ++ firstn 1024 d)),
     gateway sent net (skipn size (buf ++ firstn 1024 d)) log).
Proof.
  intros H. unfold recv_buffer_read, gateway; cbn [_recv_buffer _send_socket logging].
  now rewrite read_arrives.
Qed.

(** With payload and trailer in the buffer, the reads after the dispatch
    succeed and consume exactly these bytes. *)
Lemma recv_frame_buffered timeout now header fetch_crc fetch_size frame_size message
    sent net buf log :
  (Z.to_nat fetch_size + crc_size fetch_crc <= length buf)%nat ->
  recv_frame timeout now header fetch_crc fetch_size frame_size message
    (gateway sent net buf log)
  = (Returns
       (Some (built_message now header frame_size (firstn (Z.to_nat fetch_size) buf) message),
        false),
     gateway sent net (skipn (crc_size fetch_crc) (skipn (Z.to_nat fetch_size) buf)) log).
Proof.
  intros H. unfold recv_frame, bind at 1.
  rewrite recv_buffer_read_buffered by lia.
  destruct fetch_crc; unfold crc_size in *; unfold bind, ret.
  - rewrite recv_buffer_read_buffered by (rewrite length_skipn; lia).
    reflexivity.
  - reflexivity.
Qed.

(** A header read that yields a whole header hands over to the dispatch. *)
Lemma recv_internal_header timeout now self header_data self' :
  recv_buffer_read sizeof_MessageHeader timeout self = (Returns header_data, self') ->
  (sizeof_MessageHeader <= length header_data)%nat ->
  _recv_internal timeout now self
  = recv_dispatch timeout now Message_default (header_of_bytes header_data) self'.
Proof.
  intros Hr Hl. unfold _recv_internal, try_except_TimeoutError, bind.
  rewrite Hr. unfold lift, from_buffer_copy.
  destruct (Nat.ltb_spec (length header_data) sizeof_MessageHeader); [lia | reflexivity].
Qed.

(** A datagram that arrives on an empty buffer and holds a whole header. *)
Lemma recv_internal_arrives timeout now d net sent log :
  (sizeof_MessageHeader <= length d)%nat ->
  _recv_internal timeout now (gateway sent (Arrives d :: net) [] log)
  = recv_dispatch timeout now Message_default (header_of_bytes d)
      (gateway sent net (skipn sizeof_MessageHeader (firstn 1024 d)) log).
Proof.
  intros H. change sizeof_MessageHeader with 28%nat in *.
  rewrite (recv_internal_header timeout now _ (firstn 28 (firstn 1024 d))
             (gateway sent net (skipn 28 (firstn 1024 d)) log)).
  - rewrite firstn_firstn. change (Nat.min 28 1024) with 28%nat.
    now rewrite header_of_bytes_firstn by (change sizeof_MessageHeader with 28%nat; lia).
  - change sizeof_MessageHeader with 28%nat.
    rewrite recv_buffer_read_arrives by (simpl; lia). reflexivity.
  - rewrite firstn_firstn. change (Nat.min 28 1024) with 28%nat.
    rewrite length_firstn. change sizeof_MessageHeader with 28%nat. lia.
Qed.

(** ** The encode path, field by field *)

Lemma send_header_frame_flags (msg : Message) :
  frame_flags (send_header msg)
  = Z.lor (Z.lor (Z.lor (if negb (is_fd msg) && is_remote_frame msg
                         then FLAG_REMOTE_REQUEST else 0)
                        (if is_extended_id msg then FLAG_EXTENDED_IDENTIFIER else 0))
                 (if is_error_frame msg then FLAG_ERROR_STATE else 0))
          (if bitrate_switch msg then FLAG_BITRATE_SWITCH else 0).
Proof.
  unfold send_header.
  destruct (is_fd msg), (is_remote_frame msg), (is_extended_id msg),
    (is_error_frame msg), (bitrate_switch msg); reflexivity.
Qed.

Lemma send_header_frame_kind (msg : Message) :
  frame_kind (send_header msg)
  = if is_fd msg then MessageType.CAN_FD_FRAME else MessageType.CAN_FRAME.
Proof.
  unfold send_header.
  destruct (is_fd msg), (is_remote_frame msg), (is_extended_id msg),
    (is_error_frame msg), (bitrate_switch msg); reflexivity.
Qed.

Lemma send_header_frame_size (msg : Message) :
  frame_size (send_header msg) = c_uint 8 (dlc msg).
Proof.
  unfold send_header.
  destruct (is_fd msg), (is_remote_frame msg), (is_extended_id msg),
    (is_error_frame msg), (bitrate_switch msg); reflexivity.
Qed.

Lemma send_header_frame_id_raw (msg : Message) :
  frame_id_raw (send_header msg)
  = if negb (is_fd msg) && is_remote_frame msg
    then c_uint 32 (Z.lor (c_uint 32 (arbitration_id msg)) MASK_CAN_ID_REMOTE_REQUEST)
    else c_uint 32 (arbitration_id msg).
Proof.
  unfold send_header.
  destruct (is_fd msg), (is_remote_frame msg), (is_extended_id msg),
    (is_error_frame msg), (bitrate_switch msg); reflexivity.
Qed.

Lemma send_header_packet_size (msg : Message) :
  packet_size (send_header msg)
  = if is_fd msg then c_uint 16 (Z.of_nat sizeof_MessageHeader + dlc msg)
    else Z.of_nat sizeof_MessageHeader + FETCH_SIZE_STANDARD_FRAME.
Proof.
  unfold send_header.
  destruct (is_fd msg), (is_remote_frame msg), (is_extended_id msg),
    (is_error_frame msg), (bitrate_switch msg); reflexivity.
Qed.

Lemma send_header_wf (msg : Message) : header_wf (send_header msg).
Proof.
  unfold header_wf.
  rewrite send_header_frame_flags, send_header_frame_kind, send_header_frame_size,
    send_header_frame_id_raw, send_header_packet_size.
  assert (Hrest : unused_tag (send_header msg) = 0 /\ timestamp_low (send_header msg) = 0
                  /\ timestamp_high (send_header msg) = 0 /\ channel (send_header msg) = 0).
  { unfold send_header.
    destruct (is_fd msg), (is_remote_frame msg), (is_extended_id msg),
      (is_error_frame msg), (bitrate_switch msg); repeat split. }
  destruct Hrest as (-> & -> & -> & ->).
  pose proof (Z.mod_pos_bound (dlc msg) (2 ^ 8) eq_refl).
  pose proof (Z.mod_pos_bound (arbitration_id msg) (2 ^ 32) eq_refl).
  pose proof (Z.mod_pos_bound (Z.of_nat sizeof_MessageHeader + dlc msg) (2 ^ 16) eq_refl).
  pose proof (Z.mod_pos_bound
                (Z.lor (c_uint 32 (arbitration_id msg)) MASK_CAN_ID_REMOTE_REQUEST)
                (2 ^ 32) eq_refl).
  unfold c_uint in *.
  change (Z.of_nat sizeof_MessageHeader) with 28 in *.
  unfold FETCH_SIZE_STANDARD_FRAME, MessageType.CAN_FD_FRAME, MessageType.CAN_FRAME.
  destruct (is_fd msg), (is_remote_frame msg), (is_extended_id msg),
    (is_error_frame msg), (bitrate_switch msg); cbv [negb andb];
    repeat apply conj; first [ lia | now vm_compute ].
Qed.

(** The payload of a classic frame with at most eight data bytes: the data,
    then zero bytes up to eight. *)
Lemma send_payload_classic (msg : Message) :
  is_fd msg = false -> (length (data msg) <= 8)%nat ->
  send_payload msg = data msg ++ repeat Byte.x00 (8 - length (data msg)).
Proof.
  intros Hfd Hlen. unfold send_payload. rewrite Hfd. f_equal.
  change (Z.to_nat FETCH_SIZE_STANDARD_FRAME) with 8%nat.
  replace 8%nat with (length (data msg) + (8 - length (data msg)))%nat at 1 by lia.
  rewrite repeat_app. apply skipn_app_length, repeat_length.
Qed.

Lemma length_send_payload_classic (msg : Message) :
  is_fd msg = false -> (length (data msg) <= 8)%nat ->
  length (send_payload msg) = 8%nat.
Proof.
  intros Hfd Hlen. rewrite send_payload_classic by assumption.
  rewrite length_app, repeat_length. lia.
Qed.

(** ** Encoding *)

(** C7, as the encoder has it.  Scenario A: the classic frame with
    identifier 0x45 and the five data bytes 00 01 11 01 22 is sent with
    frame_kind 0x80, frame_size 5, frame_id_raw 0x45 and packet_size 36 (the
    28 bytes of the header and the 8 of the payload), followed by the eight
    payload bytes 00 01 11 01 22 00 00 00.  In general a classic frame whose
    data holds at most eight bytes, and no more than dlc of them, is sent
    with a payload of eight bytes that starts with the data and is zero
    from index dlc on. *)
Theorem classic_encode_pads_to_eight :
  (forall extended,
      let header := send_header (scenario_A extended) in
      frame_kind header = 0x80 /\ frame_size header = 5 /\
      frame_id_raw header = 0x45 /\ packet_size header = 36 /\
      send_payload (scenario_A extended)
      = bytes_of [0x00; 0x01; 0x11; 0x01; 0x22; 0x00; 0x00; 0x00] /\
      send_frame (scenario_A extended)
      = header_bytes header ++ send_payload (scenario_A extended)) /\
  (forall msg,
      is_fd msg = false ->
      (length (data msg) <= 8)%nat ->
      Z.of_nat (length (data msg)) <= dlc msg ->
      length (send_payload msg) = 8%nat /\
      firstn (length (data msg)) (send_payload msg) = data msg /\
      forall i, dlc msg <= Z.of_nat i -> (i < 8)%nat ->
                nth_error (send_payload msg) i = Some Byte.x00).
Proof.
  split.
  - intros [|]; vm_compute; repeat split.
  - intros msg Hfd Hlen Hdlc. split; [|split].
    + now apply length_send_payload_classic.
    + rewrite send_payload_classic by assumption.
      now apply firstn_app_length.
    + intros i Hi Hi8. rewrite send_payload_classic by assumption.
      rewrite nth_error_app2 by lia.
      apply nth_error_repeat. lia.
Qed.

Lemma classic_encode_pads_to_eight_witness :
  let msg := classic_frame 0x123 false false (bytes_of [0xAA; 0xBB; 0xCC]) in
  length (send_payload msg) = 8%nat /\
  firstn (length (data msg)) (send_payload msg) = data msg /\
  forall i, dlc msg <= Z.of_nat i -> (i < 8)%nat ->
            nth_error (send_payload msg) i = Some Byte.x00.
Proof.
  apply (proj2 classic_encode_pads_to_eight
           (classic_frame 0x123 false false (bytes_of [0xAA; 0xBB; 0xCC]))).
  - reflexivity.
  - simpl; lia.
  - simpl; lia.
Defined.

(** C7 as the specification words it fails on the length field: the header
    of scenario A does not carry packet_size 32. *)
Lemma scenario_A_packet_size_not_32 :
  let header := send_header (scenario_A false) in
  ~ (frame_kind header = 0x80 /\ frame_size header = 5 /\
     frame_id_raw header = 0x45 /\ packet_size header = 32).
Proof. vm_compute. intros (_ & _ & _ & H). discriminate H. Qed.

(** C8, evaluated on the encoder.  A frame with bitrate_switch set and
    extended_id, error_frame and remote_frame clear is sent with
    frame_flags 0x30: bit5 and also bit4, the bit of
    FLAG_EXTENDED_DATA_LENGTH, are set; the flags are not 0x20. *)
Theorem bitrate_switch_sets_bit4_and_bit5 (msg : Message) :
  bitrate_switch msg = true ->
  is_extended_id msg = false -> is_error_frame msg = false ->
  is_remote_frame msg = false ->
  frame_flags (send_header msg) = 0x30 /\
  Z.testbit (frame_flags (send_header msg)) 5 = true /\
  Z.testbit (frame_flags (send_header msg)) 4 = true /\
  Z.land (frame_flags (send_header msg)) FLAG_EXTENDED_DATA_LENGTH <> 0 /\
  frame_flags (send_header msg) <> 0x20.
Proof.
  intros Hb He Hr Hq. rewrite send_header_frame_flags, Hb, He, Hr, Hq.
  rewrite andb_false_r. vm_compute. repeat split; discriminate.
Qed.

Lemma bitrate_switch_sets_bit4_and_bit5_witness :
  let msg := mkMessage 0%Q 0x69 false false false true true 20
               (repeat Byte.x00 20) in
  frame_flags (send_header msg) = 0x30 /\
  Z.testbit (frame_flags (send_header msg)) 5 = true /\
  Z.testbit (frame_flags (send_header msg)) 4 = true /\
  Z.land (frame_flags (send_header msg)) FLAG_EXTENDED_DATA_LENGTH <> 0 /\
  frame_flags (send_header msg) <> 0x20.
Proof.
  apply (bitrate_switch_sets_bit4_and_bit5
           (mkMessage 0%Q 0x69 false false false true true 20 (repeat Byte.x00 20)));
    reflexivity.
Defined.

(** C10.  On the FD path the encoder does not look at remote_frame: bit0 of
    frame_flags is clear, bit30 of frame_id_raw is clear for an identifier
    of at most 29 bits, and the datagram is the same whether remote_frame is
    set or not. *)
Theorem fd_encode_ignores_remote_frame (msg : Message) :
  is_fd msg = true ->
  0 <= arbitration_id msg < 2 ^ 29 ->
  Z.testbit (frame_flags (send_header msg)) 0 = false /\
  Z.testbit (frame_id_raw (send_header msg)) 30 = false /\
  forall remote, send_frame (set_is_remote_frame remote msg) = send_frame msg.
Proof.
  intros Hfd Hid. split; [|split].
  - rewrite send_header_frame_flags, Hfd. cbv [negb andb].
    destruct (is_extended_id msg), (is_error_frame msg), (bitrate_switch msg);
      reflexivity.
  - rewrite send_header_frame_id_raw, Hfd. cbv [negb andb]. unfold c_uint.
    rewrite Z.mod_small by lia.
    apply Z.bits_above_log2; [lia|].
    destruct (Z.eq_dec (arbitration_id msg) 0) as [-> | Hne]; [reflexivity|].
    apply Z.log2_lt_pow2; lia.
  - intros remote. unfold send_frame, send_payload, send_header.
    destruct msg as [ts id ext rtr err fd brs n bs]; simpl in Hfd; subst fd.
    reflexivity.
Qed.

Lemma fd_encode_ignores_remote_frame_witness :
  let msg := mkMessage 0%Q 0x69 false true false true true 20 (repeat Byte.x00 20) in
  Z.testbit (frame_flags (send_header msg)) 0 = false /\
  Z.testbit (frame_id_raw (send_header msg)) 30 = false /\
  forall remote, send_frame (set_is_remote_frame remote msg) = send_frame msg.
Proof.
  apply (fd_encode_ignores_remote_frame
           (mkMessage 0%Q 0x69 false true false true true 20 (repeat Byte.x00 20))).
  - reflexivity.
  - simpl; lia.
Defined.

(** ** Decoding a datagram *)

Lemma classic_kind_not_fd (kind : Z) : classic_kind kind = true -> fd_kind kind = false.
Proof.
  unfold classic_kind, fd_kind. intros H. apply orb_true_iff in H.
  destruct H as [H | H]; apply Z.eqb_eq in H; subst kind; reflexivity.
Qed.

(** A datagram of a known kind that arrives on an empty buffer and holds
    the header, the payload the header asks for and the trailer the decode
    path reads is decoded to a frame, and what follows stays buffered. *)
Lemma recv_internal_datagram timeout now d net sent log :
  let header := header_of_bytes d in
  let rest := skipn sizeof_MessageHeader (firstn 1024 d) in
  let fetch_size := Z.to_nat (fetch_size_of header) in
  known_kind (frame_kind header) = true ->
  (sizeof_MessageHeader + fetch_size + crc_size (fetch_crc_of header)
   <= length (firstn 1024 d))%nat ->
  _recv_internal timeout now (gateway sent (Arrives d :: net) [] log)
  = (Returns
       (Some (built_message now header (frame_size header) (firstn fetch_size rest)
                (dispatched_message header)),
        false),
     gateway sent net (skipn (crc_size (fetch_crc_of header)) (skipn fetch_size rest)) log).
Proof.
  intros header rest fetch_size Hk Hl.
  assert (Hd : (sizeof_MessageHeader <= length d)%nat).
  { rewrite length_firstn in Hl. lia. }
  rewrite recv_internal_arrives by exact Hd.
  fold header. fold rest.
  assert (Hrest : (fetch_size + crc_size (fetch_crc_of header) <= length rest)%nat).
  { unfold rest. rewrite length_skipn. lia. }
  unfold recv_dispatch.
  change ((frame_kind header =? MessageType.CAN_FRAME)
          || (frame_kind header =? MessageType.CAN_FRAME_CRC))
    with (classic_kind (frame_kind header)).
  change ((frame_kind header =? MessageType.CAN_FD_FRAME)
          || (frame_kind header =? MessageType.CAN_FD_FRAME_CRC))
    with (fd_kind (frame_kind header)).
  unfold fetch_size, fetch_size_of, dispatched_message in *.
  unfold known_kind in Hk.
  destruct (classic_kind (frame_kind header)) eqn:Hc.
  - rewrite (classic_kind_not_fd _ Hc) in *.
    now rewrite recv_frame_buffered by exact Hrest.
  - cbn [orb] in Hk. rewrite Hk in *.
    now rewrite recv_frame_buffered by exact Hrest.
Qed.

(** C9, as the decode path has it.  A datagram of a known kind whose reads
    are all satisfied is decoded to a frame whose dlc is the frame_size of
    the header; the data holds dlc bytes for the FD kinds, whatever
    frame_size is, and min(dlc, 8) bytes for the classic kinds, which is dlc
    when frame_size is at most 8. *)
Theorem decoded_data_length timeout now d net sent log :
  let header := header_of_bytes d in
  known_kind (frame_kind header) = true ->
  (sizeof_MessageHeader + Z.to_nat (fetch_size_of header) + crc_size (fetch_crc_of header)
   <= length (firstn 1024 d))%nat ->
  exists msg self',
    _recv_internal timeout now (gateway sent (Arrives d :: net) [] log)
    = (Returns (Some msg, false), self') /\
    dlc msg = frame_size header /\
    is_fd msg = fd_kind (frame_kind header) /\
    Z.of_nat (length (data msg)) = (if is_fd msg then dlc msg else Z.min (dlc msg) 8) /\
    (is_fd msg = true \/ frame_size header <= 8 -> Z.of_nat (length (data msg)) = dlc msg).
Proof.
  intros header Hk Hl.
  rewrite (recv_internal_datagram timeout now d net sent log Hk Hl).
  fold header. eexists; eexists. split; [reflexivity|].
  set (rest := skipn sizeof_MessageHeader (firstn 1024 d)).
  assert (Hrest : (Z.to_nat (fetch_size_of header) <= length rest)%nat).
  { unfold rest. rewrite length_skipn. lia. }
  assert (Hfs : 0 <= frame_size header < 2 ^ 8)
    by apply (header_of_bytes_wf d).
  assert (Hlen : Z.of_nat (length (data (built_message now header (frame_size header)
                    (firstn (Z.to_nat (fetch_size_of header)) rest)
                    (dispatched_message header))))
                 = Z.min (frame_size header) (fetch_size_of header)).
  { cbn [built_message data set_data]. rewrite !length_firstn.
    assert (0 <= fetch_size_of header).
    { unfold fetch_size_of, FETCH_SIZE_STANDARD_FRAME.
      destruct (fd_kind (frame_kind header)); lia. }
    lia. }
  assert (Hfd : is_fd (built_message now header (frame_size header)
                    (firstn (Z.to_nat (fetch_size_of header)) rest)
                    (dispatched_message header))
                = fd_kind (frame_kind header)).
  { unfold dispatched_message. destruct (fd_kind (frame_kind header)); reflexivity. }
  split; [reflexivity|]. split; [exact Hfd|].
  rewrite Hlen, Hfd. cbn [built_message dlc set_data set_dlc].
  unfold fetch_size_of, FETCH_SIZE_STANDARD_FRAME.
  destruct (fd_kind (frame_kind header)); split; lia.
Qed.

Lemma decoded_data_length_witness :
  let d := header_bytes (device_header 48 MessageType.CAN_FD_FRAME 20 0 0x69)
           ++ repeat Byte.x01 20 in
  exists msg self',
    _recv_internal (Some 1%Q) 0%Q (gateway [] [Arrives d] [] [])
    = (Returns (Some msg, false), self') /\
    dlc msg = 20 /\
    is_fd msg = true /\
    Z.of_nat (length (data msg)) = (if is_fd msg then dlc msg else Z.min (dlc msg) 8) /\
    (is_fd msg = true \/ 20 <= 8 -> Z.of_nat (length (data msg)) = dlc msg).
Proof.
  apply (decoded_data_length (Some 1%Q) 0%Q
           (header_bytes (device_header 48 MessageType.CAN_FD_FRAME 20 0 0x69)
            ++ repeat Byte.x01 20) [] [] []).
  - reflexivity.
  - vm_compute. repeat constructor.
Defined.

(** C9 as the specification words it fails for a classic header whose
    frame_size is above 8: the frame has dlc 9 and eight data bytes. *)
Lemma classic_frame_size_9_data_shorter_than_dlc :
  let d := header_bytes (device_header 36 MessageType.CAN_FRAME 9 0 0x45)
           ++ repeat Byte.x01 8 in
  exists msg self',
    _recv_internal (Some 1%Q) 0%Q (gateway [] [Arrives d] [] [])
    = (Returns (Some msg, false), self') /\
    dlc msg = 9 /\ length (data msg) = 8%nat /\
    Z.of_nat (length (data msg)) <> dlc msg.
Proof.
  eexists; eexists. split; [vm_compute; reflexivity|].
  repeat split. discriminate.
Qed.

(** ** The CRC trailer *)

(** Line 168 tests the kind against the one value 0x81 | 0x91 = 0x91. *)
Lemma fetch_crc_of_spec (header : MessageHeader) :
  fetch_crc_of header = (frame_kind header =? MessageType.CAN_FD_FRAME_CRC).
Proof. unfold fetch_crc_of, py_in, existsb. apply orb_false_r. Qed.

(** C1, evaluated on the decode path.  For a header of kind CAN_FRAME_CRC
    (0x81) fetch_crc is false: the datagram is decoded without reading the
    trailer, whose four bytes stay in the buffer in front of the next
    header.  For CAN_FD_FRAME_CRC (0x91) fetch_crc is true and the trailer
    is consumed. *)
Theorem fetch_crc_misses_CAN_FRAME_CRC :
  let payload := bytes_of [1; 2; 3; 4; 5; 6; 7; 8] in
  let crc := bytes_of [0xDE; 0xAD; 0xBE; 0xEF] in
  let header81 := device_header 40 MessageType.CAN_FRAME_CRC 8 0 0x45 in
  let header91 := device_header 40 MessageType.CAN_FD_FRAME_CRC 8 0 0x45 in
  fetch_crc_of header81 = false /\
  fetch_crc_of header91 = true /\
  (exists msg,
      _recv_internal (Some 1%Q) 0%Q
        (gateway [] [Arrives (header_bytes header81 ++ payload ++ crc)] [] [])
      = (Returns (Some msg, false), gateway [] [] crc []) /\ data msg = payload) /\
  (exists msg,
      _recv_internal (Some 1%Q) 0%Q
        (gateway [] [Arrives (header_bytes header91 ++ payload ++ crc)] [] [])
      = (Returns (Some msg, false), gateway [] [] [] []) /\ data msg = payload).
Proof.
  cbv zeta. repeat split.
  - eexists. split; vm_compute; reflexivity.
  - eexists. split; vm_compute; reflexivity.
Qed.

(** ** Timeouts *)

(** A timeout of the header read is answered with "no frame". *)
Lemma header_timeout_no_frame timeout now sent net net' buf log :
  (length buf < sizeof_MessageHeader)%nat ->
  socket_recv 1024 timeout net = (Raises TimeoutError, net') ->
  _recv_internal timeout now (gateway sent net buf log)
  = (Returns (None, false), gateway sent net' buf log).
Proof.
  intros Hl Hs.
  unfold _recv_internal, try_except_TimeoutError, bind, recv_buffer_read, read, gateway.
  cbn [_recv_buffer _buffer _socket _send_socket logging].
  destruct (Nat.ltb_spec (length buf) sizeof_MessageHeader); [|lia].
  rewrite Hs. reflexivity.
Qed.

(** C4, evaluated on the decode path.  The header read is inside the
    try block: its timeout gives "no frame".  The payload read and the CRC
    read are outside of it: when a datagram ends after the header, or after
    the payload of a CAN_FD_FRAME_CRC frame, and nothing else arrives in
    time, [TimeoutError] leaves [_recv_internal]. *)
Theorem payload_and_crc_timeouts_are_raised :
  let header80 := device_header 36 MessageType.CAN_FRAME 8 0 0x45 in
  let header91 := device_header 34 MessageType.CAN_FD_FRAME_CRC 2 0 0x45 in
  _recv_internal (Some 1%Q) 0%Q (gateway [] [Quiet] [] [])
  = (Returns (None, false), gateway [] [] [] []) /\
  _recv_internal (Some 1%Q) 0%Q
    (gateway [] [Arrives (header_bytes header80); Quiet] [] [])
  = (Raises TimeoutError, gateway [] [] [] []) /\
  _recv_internal (Some 1%Q) 0%Q
    (gateway [] [Arrives (header_bytes header91 ++ bytes_of [1; 2]); Quiet] [] [])
  = (Raises TimeoutError, gateway [] [] [] []).
Proof. cbv zeta. repeat split; vm_compute; reflexivity. Qed.

(** ** Unknown kinds *)






(** ** What a read returns *)

Lemma nonblocking_of_positive (q : Q) : (0 < q)%Q -> nonblocking q = false.
Proof.
  destruct q as [n d]. unfold Qlt, nonblocking; simpl. intros H.
  apply Z.eqb_neq. lia.
Qed.

Lemma nonblocking_of_zero (q : Q) : (q == 0)%Q -> nonblocking q = true.
Proof.
  destruct q as [n d]. unfold Qeq, nonblocking; simpl. intros H.
  apply Z.eqb_eq. lia.
Qed.

Lemma timed_positive (timeout : option Q) :
  timeout_in_domain timeout -> timed timeout -> exists q, timeout = Some q /\ (0 < q)%Q.
Proof.
  intros Hd (q & -> & Hq). exists q. split; [reflexivity|].
  destruct q as [n d]. unfold timeout_in_domain, Qle, Qlt, nonblocking in *; simpl in *.
  apply Z.eqb_neq in Hq. lia.
Qed.

Lemma polling_zero (timeout : option Q) :
  polling timeout -> exists q, timeout = Some q /\ (q == 0)%Q.
Proof.
  intros (q & -> & Hq). exists q. split; [reflexivity|].
  destruct q as [n d]. unfold Qeq, nonblocking in *; simpl in *.
  apply Z.eqb_eq in Hq. lia.
Qed.

(** A read that lacks bytes and finds no datagram raises what the socket
    raises and keeps its buffer. *)
Lemma read_quiet (size : nat) (q : Q) (net : list net_event) (buf : list byte) :
  (length buf < size)%nat ->
  read size (Some q) (mkSocketReader (Quiet :: net) buf)
  = (Raises (recv_failure q), mkSocketReader net buf) /\
  read size (Some q) (mkSocketReader [] buf)
  = (Raises (recv_failure q), mkSocketReader [] buf).
Proof.
  intros H. unfold read; cbn [_buffer _socket socket_recv].
  destruct (Nat.ltb_spec (length buf) size); [split; reflexivity | lia].
Qed.

(** C3, as the reader has it.  A call [read(n, timeout)] with [n] bytes
    buffered returns the first [n] of them without touching the socket.
    With fewer it makes one receive.  When a datagram comes, its bytes (at
    most 1024) go behind the buffer and the call returns the first [n]
    bytes of the buffer so replenished, or all of them when there are fewer:
    min(n, buffered + received) bytes, the rest staying buffered.  When none
    comes, the call raises [TimeoutError] under a timeout of some seconds
    and [BlockingIOError] under the timeout 0, the buffer unchanged; without
    a timeout it waits on, for ever if nothing is ever sent.  No call
    returns more than [n] bytes. *)
Theorem read_returns_at_most_n (size : nat) (net : list net_event) (buf : list byte) :
  (forall timeout, (size <= length buf)%nat ->
     read size timeout (mkSocketReader net buf)
     = (Returns (firstn size buf), mkSocketReader net (skipn size buf)) /\
     length (firstn size buf) = size) /\
  (forall timeout d, timeout_in_domain timeout -> (length buf < size)%nat ->
     read size timeout (mkSocketReader (Arrives d :: net) buf)
     = (Returns (firstn size (buf ++ firstn 1024 d)),
        mkSocketReader net (skipn size (buf ++ firstn 1024 d))) /\
     length (firstn size (buf ++ firstn 1024 d))
     = Nat.min size (length buf + Nat.min 1024 (length d))) /\
  (forall q, (0 < q)%Q -> (length buf < size)%nat ->
     read size (Some q) (mkSocketReader (Quiet :: net) buf)
     = (Raises TimeoutError, mkSocketReader net buf) /\
     read size (Some q) (mkSocketReader [] buf)
     = (Raises TimeoutError, mkSocketReader [] buf)) /\
  (forall q, (q == 0)%Q -> (length buf < size)%nat ->
     read size (Some q) (mkSocketReader (Quiet :: net) buf)
     = (Raises BlockingIOError, mkSocketReader net buf) /\
     read size (Some q) (mkSocketReader [] buf)
     = (Raises BlockingIOError, mkSocketReader [] buf)) /\
  ((length buf < size)%nat ->
     read size None (mkSocketReader (Quiet :: net) buf)
     = read size None (mkSocketReader net buf) /\
     read size None (mkSocketReader [] buf) = (Blocks, mkSocketReader [] buf)) /\
  (forall timeout self bs self',
     read size timeout self = (Returns bs, self') -> (length bs <= size)%nat).
Proof.
  repeat apply conj.
  - intros timeout H. split; [now apply read_buffered|].
    apply firstn_length_le. exact H.
  - intros timeout d _ H. split; [now apply read_arrives|].
    rewrite length_firstn, length_app, length_firstn. reflexivity.
  - intros q Hq H. destruct (read_quiet size q net buf H) as [H1 H2].
    unfold recv_failure in H1, H2. rewrite (nonblocking_of_positive q Hq) in H1, H2.
    split; assumption.
  - intros q Hq H. destruct (read_quiet size q net buf H) as [H1 H2].
    unfold recv_failure in H1, H2. rewrite (nonblocking_of_zero q Hq) in H1, H2.
    split; assumption.
  - intros H. unfold read; cbn [_buffer _socket socket_recv].
    destruct (Nat.ltb_spec (length buf) size); [split; reflexivity | lia].
  - intros timeout self bs self'. unfold read.
    destruct (length (_buffer self) <? size)%nat.
    + destruct (socket_recv 1024 timeout (_socket self)) as [[d | e |] net'];
        intros H; inversion H; subst. rewrite length_firstn. lia.
    + intros H; inversion H; subst. rewrite length_firstn. lia.
Qed.

Lemma read_returns_at_most_n_witness :
  read 28 (Some 1%Q) (mkSocketReader [Arrives (repeat Byte.x00 10); Quiet] (repeat Byte.x01 3))
  = (Returns (firstn 28 (repeat Byte.x01 3 ++ firstn 1024 (repeat Byte.x00 10))),
     mkSocketReader [Quiet]
       (skipn 28 (repeat Byte.x01 3 ++ firstn 1024 (repeat Byte.x00 10)))) /\
  length (firstn 28 (repeat Byte.x01 3 ++ firstn 1024 (repeat Byte.x00 10)))
  = Nat.min 28 (length (repeat Byte.x01 3) + Nat.min 1024 (length (repeat Byte.x00 10))).
Proof.
  apply (proj1 (proj2 (read_returns_at_most_n 28 [Quiet] (repeat Byte.x01 3)))
           (Some 1%Q) (repeat Byte.x00 10)).
  - vm_compute. discriminate.
  - vm_compute. repeat constructor.
Defined.

(** C3 as the specification words it fails when the one receive brings too
    little: a read of 28 bytes on an empty buffer, answered by a datagram of
    10 bytes, returns these 10 bytes. *)
Lemma read_returns_fewer_than_n :
  let r := fst (read 28 (Some 1%Q) (mkSocketReader [Arrives (repeat Byte.x00 10)] [])) in
  r = Returns (repeat Byte.x00 10) /\
  ~ ((exists bs, r = Returns bs /\ length bs = 28%nat) \/ r = Raises TimeoutError).
Proof.
  cbv zeta. split; [reflexivity|].
  intros [(bs & H & Hl) | H].
  - vm_compute in H. inversion H; subst bs. discriminate Hl.
  - vm_compute in H. discriminate H.
Qed.

(** ** Round trips *)

(** C5, evaluated on the codec.  The classic frame with identifier
    0x1FFFFFFF, extended_id and remote_frame is sent with frame_id_raw
    0x1FFFFFFF | (1 << 30) = 0x5FFFFFFF, bit31 clear, and with bit0 (and
    bit1) of frame_flags set.  Decoding that datagram gives remote_frame
    true, but extended_id false and arbitration_id 0x0FFFFFFF. *)
Theorem scenario_C_loses_extended_id_and_bit28 timeout now net sent log :
  let header := send_header scenario_C in
  frame_id_raw header = Z.lor 0x1FFFFFFF (Z.shiftl 1 30) /\
  frame_id_raw header <> Z.lor (Z.lor 0x1FFFFFFF (Z.shiftl 1 30)) (Z.shiftl 1 31) /\
  Z.testbit (frame_id_raw header) 31 = false /\
  frame_flags header = 0x03 /\
  Z.testbit (frame_flags header) 0 = true /\
  exists msg self',
    _recv_internal timeout now (gateway sent (Arrives (send_frame scenario_C) :: net) [] log)
    = (Returns (Some msg, false), self') /\
    is_remote_frame msg = true /\
    is_extended_id msg = false /\
    arbitration_id msg = 0x0FFFFFFF.
Proof.
  cbv zeta. repeat apply conj; try (vm_compute; congruence).
  rewrite recv_internal_datagram;
    [ | vm_compute; reflexivity | vm_compute; repeat constructor ].
  eexists; eexists. split; [reflexivity|].
  repeat split; vm_compute; reflexivity.
Qed.

(** C2, evaluated on the codec.  Two valid classic frames that do not come
    back: with extended_id set, the decoded frame has extended_id false (the
    encoder sets FLAG_EXTENDED_IDENTIFIER in frame_flags and leaves bit31 of
    frame_id_raw clear, the decoder reads bit31); with the identifier
    0x10000000, below 2^29, the decoded identifier is 0 (MASK_CAN_ID keeps 28
    bits). *)
Theorem classic_round_trip_loses_extended_id_and_bit28 timeout now net sent log :
  (let frame := classic_frame 0x45 true false (bytes_of [0x00; 0x01; 0x11; 0x01; 0x22]) in
   exists msg self',
     _recv_internal timeout now (gateway sent (Arrives (send_frame frame) :: net) [] log)
     = (Returns (Some msg, false), self') /\
     arbitration_id msg = arbitration_id frame /\ dlc msg = dlc frame /\
     data msg = data frame /\ is_remote_frame msg = is_remote_frame frame /\
     is_extended_id frame = true /\ is_extended_id msg = false) /\
  (let frame := classic_frame 0x10000000 false false [] in
   exists msg self',
     _recv_internal timeout now (gateway sent (Arrives (send_frame frame) :: net) [] log)
     = (Returns (Some msg, false), self') /\
     dlc msg = dlc frame /\ data msg = data frame /\
     is_remote_frame msg = is_remote_frame frame /\
     is_extended_id msg = is_extended_id frame /\
     arbitration_id frame = 0x10000000 /\ arbitration_id msg = 0) /\
  0 <= 0x45 < 2 ^ 29 /\ 0 <= 0x10000000 < 2 ^ 29.
Proof.
  cbv zeta. split; [|split; [|lia]].
  - rewrite recv_internal_datagram;
      [ | vm_compute; reflexivity | vm_compute; repeat constructor ].
    eexists; eexists. split; [reflexivity|].
    repeat split; vm_compute; reflexivity.
  - rewrite recv_internal_datagram;
      [ | vm_compute; reflexivity | vm_compute; repeat constructor ].
    eexists; eexists. split; [reflexivity|].
    repeat split; vm_compute; reflexivity.
Qed.

(** *** What does come back *)

Lemma land_c_uint_32 (x m : Z) : 0 <= m < 2 ^ 32 -> Z.land (c_uint 32 x) m = Z.land x m.
Proof.
  intros Hm. unfold c_uint. rewrite <- Z.land_ones by lia.
  rewrite <- Z.land_assoc. f_equal.
  rewrite Z.land_comm, Z.land_ones by lia. apply Z.mod_small. exact Hm.
Qed.

Lemma land_below_2_28 (id m : Z) :
  0 <= id < 2 ^ 28 -> Z.land (Z.ones 28) m = 0 -> Z.land id m = 0.
Proof.
  intros Hid Hm.
  replace id with (Z.land id (Z.ones 28))
    by (rewrite Z.land_ones by lia; apply Z.mod_small; exact Hid).
  rewrite <- Z.land_assoc, Hm. apply Z.land_0_r.
Qed.

(** An identifier of at most 28 bits comes back through [frame_id]. *)
Lemma frame_id_send_header (frame : Message) :
  0 <= arbitration_id frame < 2 ^ 28 ->
  frame_id (send_header frame) = arbitration_id frame.
Proof.
  intros Hid. unfold frame_id. rewrite send_header_frame_id_raw.
  assert (Hmask : Z.land (arbitration_id frame) MASK_CAN_ID = arbitration_id frame).
  { change MASK_CAN_ID with (Z.ones 28).
    rewrite Z.land_ones by lia. apply Z.mod_small. exact Hid. }
  destruct (negb (is_fd frame) && is_remote_frame frame).
  - rewrite land_c_uint_32 by (vm_compute; split; congruence).
    rewrite Z.land_lor_distr_l.
    rewrite land_c_uint_32 by (vm_compute; split; congruence).
    rewrite Hmask. change (Z.land MASK_CAN_ID_REMOTE_REQUEST MASK_CAN_ID) with 0.
    apply Z.lor_0_r.
  - rewrite land_c_uint_32 by (vm_compute; split; congruence). exact Hmask.
Qed.

(** The encoder never sets bit31 of [frame_id_raw]: such an identifier is
    decoded as not extended, whatever [is_extended_id] was. *)
Lemma frame_extended_id_send_header (frame : Message) :
  0 <= arbitration_id frame < 2 ^ 28 ->
  frame_extended_id (send_header frame) = false.
Proof.
  intros Hid. unfold frame_extended_id. rewrite send_header_frame_id_raw.
  assert (Hbit : Z.land (arbitration_id frame) MASK_CAN_ID_EXTENDED_FRAME = 0)
    by (apply land_below_2_28; [exact Hid | reflexivity]).
  destruct (negb (is_fd frame) && is_remote_frame frame).
  - rewrite land_c_uint_32 by (vm_compute; split; congruence).
    rewrite Z.land_lor_distr_l.
    rewrite land_c_uint_32 by (vm_compute; split; congruence).
    rewrite Hbit. reflexivity.
  - rewrite land_c_uint_32 by (vm_compute; split; congruence).
    rewrite Hbit. reflexivity.
Qed.

Lemma flag_remote_request_send_header (frame : Message) :
  is_fd frame = false ->
  flag_remote_request_frame (send_header frame) = is_remote_frame frame.
Proof.
  intros Hfd. unfold flag_remote_request_frame.
  rewrite send_header_frame_flags, Hfd.
  destruct (is_remote_frame frame), (is_extended_id frame), (is_error_frame frame),
    (bitrate_switch frame); reflexivity.
Qed.

(** The round trip of a classic frame whose identifier has at most 28
    bits, with [dlc] data bytes, at most eight: identifier, dlc, data and
    remote_frame come back; extended_id comes back as false. *)
Lemma classic_round_trip timeout now frame net sent log :
  is_fd frame = false ->
  0 <= arbitration_id frame < 2 ^ 28 ->
  0 <= dlc frame <= 8 ->
  Z.of_nat (length (data frame)) = dlc frame ->
  exists msg self',
    _recv_internal timeout now (gateway sent (Arrives (send_frame frame) :: net) [] log)
    = (Returns (Some msg, false), self') /\
    arbitration_id msg = arbitration_id frame /\
    dlc msg = dlc frame /\
    data msg = data frame /\
    is_remote_frame msg = is_remote_frame frame /\
    is_extended_id msg = false.
Proof.
  intros Hfd Hid Hdlc Hlen.
  assert (Hdata : (length (data frame) <= 8)%nat) by lia.
  pose proof (send_header_wf frame) as Hwf.
  pose proof (header_of_bytes_header_bytes _ (send_payload frame) Hwf) as Hh.
  fold (send_frame frame) in Hh.
  assert (Hl : length (send_frame frame) = 36%nat).
  { unfold send_frame. rewrite length_app, length_header_bytes,
      length_send_payload_classic by assumption. reflexivity. }
  assert (Hcut : firstn 1024 (send_frame frame) = send_frame frame)
    by (apply firstn_all2; lia).
  assert (Hkind : frame_kind (send_header frame) = MessageType.CAN_FRAME)
    by (rewrite send_header_frame_kind, Hfd; reflexivity).
  assert (Hsize : frame_size (send_header frame) = dlc frame).
  { rewrite send_header_frame_size. apply Z.mod_small. lia. }
  pose proof (recv_internal_datagram timeout now (send_frame frame) net sent log) as H.
  cbv zeta in H. rewrite Hh, Hcut, Hl in H.
  unfold fetch_size_of, dispatched_message in H.
  rewrite fetch_crc_of_spec, Hkind, Hsize in H.
  change (fd_kind MessageType.CAN_FRAME) with false in H.
  change (MessageType.CAN_FRAME =? MessageType.CAN_FD_FRAME_CRC) with false in H.
  cbv iota in H. rewrite H; [ | reflexivity | vm_compute; repeat constructor ].
  eexists; eexists. split; [reflexivity|].
  cbn [built_message set_data set_dlc set_is_extended_id set_arbitration_id set_timestamp
       set_is_remote_frame arbitration_id dlc data is_remote_frame is_extended_id
       Message_default].
  repeat apply conj.
  - now apply frame_id_send_header.
  - reflexivity.
  - unfold send_frame. rewrite (skipn_app_length _ _ _ (length_header_bytes _)).
    change (Z.to_nat FETCH_SIZE_STANDARD_FRAME) with 8%nat.
    rewrite (firstn_all2 (n:=8))
      by (rewrite length_send_payload_classic by assumption; lia).
    rewrite send_payload_classic by assumption.
    apply firstn_app_length. lia.
  - now apply flag_remote_request_send_header.
  - now apply frame_extended_id_send_header.
Qed.

(** * Further properties of the codec *)

(** ** The header as bytes *)

Lemma be_bytes_be_int (n : nat) (bs : list byte) :
  length bs = n -> be_bytes n (be_int bs) = bs.
Proof.
  intros H. unfold be_bytes, be_int.
  rewrite split_le_combine' by (rewrite length_rev; exact H).
  apply rev_involutive.
Qed.

(** [MessageHeader.from_buffer_copy(bytearray(header))] is the header:
    the 28 bytes of a header whose fields hold values of their widths parse
    back to it, whatever follows them in the buffer. *)
Theorem from_buffer_copy_header_bytes (h : MessageHeader) (rest : list byte) :
  header_wf h ->
  length (header_bytes h) = 28%nat /\
  from_buffer_copy (header_bytes h ++ rest) = Returns h.
Proof.
  intros Hwf. split; [apply length_header_bytes|].
  unfold from_buffer_copy.
  destruct (Nat.ltb_spec (length (header_bytes h ++ rest)) sizeof_MessageHeader) as [Hlt|_].
  - rewrite length_app, length_header_bytes in Hlt. lia.
  - now rewrite header_of_bytes_header_bytes.
Qed.

Lemma from_buffer_copy_header_bytes_witness :
  length (header_bytes (device_header 36 0x80 5 0x01 0x40000045)) = 28%nat /\
  from_buffer_copy (header_bytes (device_header 36 0x80 5 0x01 0x40000045)
                    ++ bytes_of [1; 2; 3; 4; 5; 0; 0; 0])
  = Returns (device_header 36 0x80 5 0x01 0x40000045).
Proof.
  apply (from_buffer_copy_header_bytes (device_header 36 0x80 5 0x01 0x40000045)
           (bytes_of [1; 2; 3; 4; 5; 0; 0; 0])).
  unfold header_wf; simpl. lia.
Defined.

(** The other way round: the header parsed from a buffer of at least 28
    bytes serialises to the first 28 bytes of that buffer. *)
Theorem header_bytes_header_of_bytes (buf : list byte) :
  (sizeof_MessageHeader <= length buf)%nat ->
  header_bytes (header_of_bytes buf) = firstn sizeof_MessageHeader buf.
Proof.
  change sizeof_MessageHeader with 28%nat. intros H.
  do 28 (destruct buf as [|? buf]; [simpl in H; lia|]).
  unfold header_of_bytes, header_bytes, field_at.
  cbn [packet_size frame_kind unused_tag timestamp_low timestamp_high channel
       frame_size frame_flags frame_id_raw skipn firstn ctype_size].
  rewrite !be_bytes_be_int by reflexivity. reflexivity.
Qed.

Lemma header_bytes_header_of_bytes_witness :
  header_bytes (header_of_bytes (bytes_of (repeat 0xA5 30)))
  = firstn sizeof_MessageHeader (bytes_of (repeat 0xA5 30)).
Proof.
  apply (header_bytes_header_of_bytes (bytes_of (repeat 0xA5 30))).
  vm_compute. repeat constructor.
Defined.

(** [from_buffer_copy] refuses exactly the buffers shorter than 28 bytes,
    with [ValueError]; on any other buffer it returns a header whose fields
    lie within their widths and that depends on the first 28 bytes only. *)
Theorem from_buffer_copy_outcome (buf : list byte) :
  match from_buffer_copy buf with
  | Returns h =>
      (28 <= length buf)%nat /\ header_wf h /\
      forall tail, from_buffer_copy (firstn 28 buf ++ tail) = Returns h
  | Raises e => e = ValueError /\ (length buf < 28)%nat
  | Blocks => False
  end.
Proof.
  unfold from_buffer_copy. change sizeof_MessageHeader with 28%nat.
  destruct (Nat.ltb_spec (length buf) 28) as [Hlt | Hge].
  - split; [reflexivity | exact Hlt].
  - split; [exact Hge|]. split; [apply header_of_bytes_wf|].
    intros tail.
    assert (Hl : length (firstn 28 buf) = 28%nat) by (rewrite length_firstn; lia).
    destruct (Nat.ltb_spec (length (firstn 28 buf ++ tail)) 28) as [Hlt | _].
    + rewrite length_app in Hlt. lia.
    + f_equal.
      rewrite <- (header_of_bytes_firstn 28 (firstn 28 buf ++ tail))
        by (change sizeof_MessageHeader with 28%nat; lia).
      rewrite (firstn_app_length _ _ _ Hl).
      apply header_of_bytes_firstn. change sizeof_MessageHeader with 28%nat. lia.
Qed.

(** ** The accessors of the header, bit by bit *)

Lemma py_bool_land_bit (x : Z) (n : Z) :
  0 <= n -> py_bool (Z.land x (2 ^ n)) = Z.testbit x n.
Proof.
  intros Hn. unfold py_bool.
  destruct (Z.testbit x n) eqn:Hb.
  - apply negb_true_iff, Z.eqb_neq. intros H0.
    assert (Hc : Z.testbit (Z.land x (2 ^ n)) n = true)
      by (rewrite Z.land_spec, Hb, Z.pow2_bits_true by exact Hn; reflexivity).
    rewrite H0, Z.bits_0 in Hc. discriminate Hc.
  - apply negb_false_iff, Z.eqb_eq. apply Z.bits_inj'. intros m Hm.
    rewrite Z.land_spec, Z.bits_0, Z.pow2_bits_eqb by exact Hn.
    destruct (Z.eqb_spec n m) as [-> | _].
    + now rewrite Hb.
    + apply andb_false_r.
Qed.

Lemma py_bool_lor (a b : Z) : py_bool (Z.lor a b) = py_bool a || py_bool b.
Proof.
  unfold py_bool.
  destruct (Z.eqb_spec a 0) as [-> | Ha]; cbn [negb orb].
  - now rewrite Z.lor_0_l.
  - apply negb_true_iff, Z.eqb_neq. intros H. apply Z.lor_eq_0_iff in H. tauto.
Qed.

(** What each accessor reads, for every header: the remote-request and
    error-state flags are bit0 and bit6 of frame_flags; the bitrate-switch
    accessor, and the extended-data-length accessor with it, is true when
    bit4 or bit5 is set; extended_id is bit31 of frame_id_raw; the
    identifier is frame_id_raw modulo 2^28. *)
Theorem header_accessors_read_bits (h : MessageHeader) :
  flag_remote_request_frame h = Z.testbit (frame_flags h) 0 /\
  flag_error_state_indicator h = Z.testbit (frame_flags h) 6 /\
  flag_activated_bitrate_switch h
  = Z.testbit (frame_flags h) 4 || Z.testbit (frame_flags h) 5 /\
  flag_extended_data_length h
  = Z.testbit (frame_flags h) 4 || Z.testbit (frame_flags h) 5 /\
  frame_extended_id h = Z.testbit (frame_id_raw h) 31 /\
  frame_id h = frame_id_raw h mod 2 ^ 28 /\
  0 <= frame_id h < 2 ^ 28.
Proof.
  assert (H30 : forall x, py_bool (Z.land x FLAG_BITRATE_SWITCH)
                          = Z.testbit x 4 || Z.testbit x 5).
  { intros x. change FLAG_BITRATE_SWITCH with (Z.lor (2 ^ 4) (2 ^ 5)).
    rewrite Z.land_lor_distr_r, py_bool_lor, !py_bool_land_bit by lia. reflexivity. }
  assert (Hid : frame_id h = frame_id_raw h mod 2 ^ 28).
  { unfold frame_id. change MASK_CAN_ID with (Z.ones 28). apply Z.land_ones. lia. }
  repeat apply conj.
  - apply (py_bool_land_bit _ 0). lia.
  - apply (py_bool_land_bit _ 6). lia.
  - apply H30.
  - apply H30.
  - apply (py_bool_land_bit _ 31). lia.
  - exact Hid.
  - rewrite Hid. apply Z.mod_pos_bound. lia.
  - rewrite Hid. apply Z.mod_pos_bound. lia.
Qed.

(** ** What the encoder writes *)

(** For every frame the header that [send] builds holds values of the
    field widths; its kind is CAN_FD_FRAME for an FD frame and CAN_FRAME
    otherwise, never one of the CRC kinds, so the decode path reads no
    trailer after it; the tag, both timestamps and the channel are zero, and
    frame_size is dlc modulo 256. *)
Theorem send_header_kind_and_fixed_fields (msg : Message) :
  let header := send_header msg in
  header_wf header /\
  frame_kind header = (if is_fd msg then 0x90 else 0x80) /\
  fetch_crc_of header = false /\
  unused_tag header = 0 /\ timestamp_low header = 0 /\
  timestamp_high header = 0 /\ channel header = 0 /\
  frame_size header = dlc msg mod 256.
Proof.
  cbv zeta. split; [apply send_header_wf|].
  split; [apply send_header_frame_kind|].
  split.
  { rewrite fetch_crc_of_spec, send_header_frame_kind. now destruct (is_fd msg). }
  split; [|split; [|split; [|split]]];
    try (unfold send_header;
         destruct (is_fd msg), (is_remote_frame msg), (is_extended_id msg),
           (is_error_frame msg), (bitrate_switch msg); reflexivity).
Qed.

(** The flags that [send] writes, bit by bit, for every frame: bit0 is
    remote_frame on a classic frame and clear on an FD frame, bit1 is
    extended_id, bit6 is error_frame, bit4 and bit5 are both bitrate_switch;
    bit2, bit3 and every bit from bit7 on are clear. *)
Theorem send_header_flag_bits (msg : Message) :
  let flags := frame_flags (send_header msg) in
  Z.testbit flags 0 = negb (is_fd msg) && is_remote_frame msg /\
  Z.testbit flags 1 = is_extended_id msg /\
  Z.testbit flags 2 = false /\
  Z.testbit flags 3 = false /\
  Z.testbit flags 4 = bitrate_switch msg /\
  Z.testbit flags 5 = bitrate_switch msg /\
  Z.testbit flags 6 = is_error_frame msg /\
  0 <= flags < 2 ^ 7.
Proof.
  cbv zeta. rewrite send_header_frame_flags.
  destruct (is_fd msg), (is_remote_frame msg), (is_extended_id msg),
    (is_error_frame msg), (bitrate_switch msg);
    vm_compute; repeat split; congruence.
Qed.

(** The datagram of an FD frame is the header followed by the data as they
    are: 28 + len(data) bytes. *)
Lemma length_send_frame_fd (msg : Message) :
  is_fd msg = true -> length (send_frame msg) = (28 + length (data msg))%nat.
Proof.
  intros Hfd. unfold send_frame, send_payload.
  now rewrite Hfd, length_app, length_header_bytes.
Qed.

(** The length field against the datagram.  A classic frame with at most
    eight data bytes is sent as 36 bytes with packet_size 36.  With more
    than eight data bytes nothing is cut: the datagram has 28 + len(data)
    bytes and packet_size still says 36.  An FD frame is sent as
    28 + len(data) bytes with packet_size (28 + dlc) modulo 2^16, which is
    the length of the datagram when dlc is len(data). *)
Theorem send_frame_length_and_packet_size (msg : Message) :
  (is_fd msg = false -> (length (data msg) <= 8)%nat ->
   length (send_frame msg) = 36%nat /\ packet_size (send_header msg) = 36) /\
  (is_fd msg = false -> (8 < length (data msg))%nat ->
   length (send_frame msg) = (28 + length (data msg))%nat /\
   send_payload msg = data msg /\
   packet_size (send_header msg) = 36) /\
  (is_fd msg = true ->
   length (send_frame msg) = (28 + length (data msg))%nat /\
   packet_size (send_header msg) = (28 + dlc msg) mod 2 ^ 16 /\
   (dlc msg = Z.of_nat (length (data msg)) -> dlc msg < 2 ^ 16 - 28 ->
    packet_size (send_header msg) = Z.of_nat (length (send_frame msg)))).
Proof.
  repeat apply conj.
  - intros Hfd Hlen. unfold send_frame.
    rewrite length_app, length_header_bytes, length_send_payload_classic by assumption.
    rewrite send_header_packet_size, Hfd. split; reflexivity.
  - intros Hfd Hlen.
    assert (Hp : send_payload msg = data msg).
    { unfold send_payload. rewrite Hfd.
      rewrite skipn_all2 by (rewrite repeat_length; simpl; lia). apply app_nil_r. }
    unfold send_frame. rewrite Hp, length_app, length_header_bytes.
    rewrite send_header_packet_size, Hfd. repeat split.
  - intros Hfd. rewrite length_send_frame_fd by exact Hfd.
    rewrite send_header_packet_size, Hfd. repeat split.
    intros Hd Hlt. unfold c_uint. change (Z.of_nat sizeof_MessageHeader) with 28.
    rewrite Z.mod_small by lia. lia.
Qed.

Lemma send_frame_length_and_packet_size_witness :
  let msg := classic_frame 0x45 false false (bytes_of [1; 2; 3; 4; 5; 6; 7; 8; 9; 10]) in
  length (send_frame msg) = (28 + length (data msg))%nat /\
  send_payload msg = data msg /\
  packet_size (send_header msg) = 36.
Proof.
  apply (proj1 (proj2 (send_frame_length_and_packet_size
           (classic_frame 0x45 false false (bytes_of [1; 2; 3; 4; 5; 6; 7; 8; 9; 10]))))).
  - reflexivity.
  - simpl; lia.
Defined.

(** ** The reader as a byte stream *)

Lemma firstn_firstn_skipn {A} (a b : nat) (l : list A) :
  firstn a l ++ firstn b (skipn a l) = firstn (a + b) l.
Proof.
  revert l. induction a as [|a IH]; intros l; [reflexivity|].
  destruct l as [|x l]; cbn [firstn skipn Nat.add app].
  - now rewrite firstn_nil.
  - now rewrite IH.
Qed.

(** What a receive hands over and what it leaves to come are together what
    was to come. *)
Lemma socket_recv_stream (timeout : option Q) (net : list net_event) :
  match fst (socket_recv 1024 timeout net) with
  | Returns d => d
  | _ => []
  end ++ stream (snd (socket_recv 1024 timeout net)) = stream net.
Proof.
  induction net as [|[d|] net IH]; cbn [socket_recv stream].
  - now destruct timeout.
  - reflexivity.
  - destruct timeout; [reflexivity | exact IH].
Qed.

(** No byte is lost, repeated or reordered by a read, however it ends.  Take
    the bytes in front of the reader: its buffer, then the datagrams its
    socket is still to deliver, each cut to the 1024 bytes a receive takes.
    The bytes a read returns (none when it raises or waits for ever),
    followed by the bytes in front of the reader after the call, are the
    bytes that were in front of it before.  With [size] bytes buffered the
    socket is left as it was. *)
Theorem read_conserves_bytes (size : nat) (timeout : option Q) (self : SocketReader) :
  let r := read size timeout self in
  let returned := match fst r with Returns bs => bs | _ => [] end in
  returned ++ _buffer (snd r) ++ stream (_socket (snd r))
  = _buffer self ++ stream (_socket self) /\
  ((size <= length (_buffer self))%nat -> _socket (snd r) = _socket self).
Proof.
  cbv zeta. unfold read.
  pose proof (socket_recv_stream timeout (_socket self)) as Hs.
  destruct (Nat.ltb_spec (length (_buffer self)) size) as [Hlt | Hge].
  - split; [|lia].
    destruct (socket_recv 1024 timeout (_socket self)) as [[d | e |] net'];
      cbn [fst snd _buffer _socket] in *.
    + rewrite app_assoc, firstn_skipn, <- app_assoc, Hs. reflexivity.
    + now rewrite <- Hs.
    + now rewrite <- Hs.
  - cbn [fst snd _buffer _socket]. split; [|reflexivity].
    now rewrite app_assoc, firstn_skipn.
Qed.

(** Reads from a buffer that holds enough compose: with [a + b] bytes
    buffered, a read of [a] and then a read of [b] return the first [a]
    bytes and the next [b], together the bytes a single read of [a + b]
    returns, they leave the reader as that read does, and none of them
    touches the socket.  A read of 0 bytes returns nothing and changes
    nothing, whatever the buffer holds. *)
Theorem reads_from_buffer_compose (a b : nat) (timeout : option Q) (self : SocketReader) :
  (a + b <= length (_buffer self))%nat ->
  let r1 := read a timeout self in
  let r2 := read b timeout (snd r1) in
  let r := read (a + b) timeout self in
  fst r1 = Returns (firstn a (_buffer self)) /\
  fst r2 = Returns (firstn b (skipn a (_buffer self))) /\
  fst r = Returns (firstn a (_buffer self) ++ firstn b (skipn a (_buffer self))) /\
  snd r2 = snd r /\
  _socket (snd r) = _socket self /\
  read 0 timeout self = (Returns [], self).
Proof.
  intros H. destruct self as [net buf]. cbn [_buffer _socket] in *. cbv zeta.
  rewrite (read_buffered a) by lia. cbn [fst snd].
  rewrite (read_buffered b) by (rewrite length_skipn; lia).
  rewrite (read_buffered (a + b)) by lia. cbn [fst snd _socket].
  rewrite (read_buffered 0) by lia.
  rewrite firstn_firstn_skipn, skipn_skipn, (Nat.add_comm b a).
  repeat split.
Qed.

Lemma reads_from_buffer_compose_witness :
  let self := mkSocketReader [] (bytes_of [1; 2; 3; 4; 5; 6; 7]) in
  let r1 := read 2 None self in
  let r2 := read 3 None (snd r1) in
  let r := read (2 + 3) None self in
  fst r1 = Returns (firstn 2 (_buffer self)) /\
  fst r2 = Returns (firstn 3 (skipn 2 (_buffer self))) /\
  fst r = Returns (firstn 2 (_buffer self) ++ firstn 3 (skipn 2 (_buffer self))) /\
  snd r2 = snd r /\
  _socket (snd r) = _socket self /\
  read 0 None self = (Returns [], self).
Proof.
  apply (reads_from_buffer_compose 2 3 None
           (mkSocketReader [] (bytes_of [1; 2; 3; 4; 5; 6; 7]))).
  simpl; lia.
Defined.

(** ** Sending and reading back *)

Lemma flag_error_state_send_header (frame : Message) :
  flag_error_state_indicator (send_header frame) = is_error_frame frame.
Proof.
  unfold flag_error_state_indicator. rewrite send_header_frame_flags.
  destruct (is_fd frame), (is_remote_frame frame), (is_extended_id frame),
    (is_error_frame frame), (bitrate_switch frame); reflexivity.
Qed.

Lemma flag_bitrate_switch_send_header (frame : Message) :
  flag_activated_bitrate_switch (send_header frame) = bitrate_switch frame.
Proof.
  unfold flag_activated_bitrate_switch. rewrite send_header_frame_flags.
  destruct (is_fd frame), (is_remote_frame frame), (is_extended_id frame),
    (is_error_frame frame), (bitrate_switch frame); reflexivity.
Qed.

(** The header of a carried frame: a known kind without trailer, and a
    payload of the size the decode path will ask for. *)
Lemma carried_send_header (frame : Message) :
  carried frame ->
  known_kind (frame_kind (send_header frame)) = true /\
  crc_size (fetch_crc_of (send_header frame)) = 0%nat /\
  frame_size (send_header frame) = dlc frame /\
  Z.to_nat (fetch_size_of (send_header frame)) = length (send_payload frame) /\
  (length (send_payload frame) <= 255)%nat.
Proof.
  intros (Hid & Hlen & Hdlc).
  assert (Hsize : frame_size (send_header frame) = dlc frame).
  { rewrite send_header_frame_size. apply Z.mod_small.
    destruct (is_fd frame); lia. }
  assert (Hfetch : Z.to_nat (fetch_size_of (send_header frame))
                   = length (send_payload frame) /\
                   (length (send_payload frame) <= 255)%nat).
  { unfold fetch_size_of. rewrite send_header_frame_kind, Hsize.
    destruct (is_fd frame) eqn:Hfd.
    - change (fd_kind MessageType.CAN_FD_FRAME) with true. cbv iota.
      unfold send_payload. rewrite Hfd. lia.
    - change (fd_kind MessageType.CAN_FRAME) with false. cbv iota.
      rewrite length_send_payload_classic by (try assumption; lia).
      split; [reflexivity | lia]. }
  repeat apply conj; try tauto.
  - rewrite send_header_frame_kind; now destruct (is_fd frame).
  - rewrite fetch_crc_of_spec, send_header_frame_kind. now destruct (is_fd frame).
Qed.

(** The frame built from the header and the payload of a carried frame. *)
Lemma built_message_carried (now : Q) (frame : Message) :
  carried frame ->
  built_message now (send_header frame) (frame_size (send_header frame))
    (send_payload frame) (dispatched_message (send_header frame))
  = echo now frame.
Proof.
  intros Hc. destruct (carried_send_header frame Hc) as (_ & _ & Hsize & _ & _).
  destruct Hc as (Hid & Hlen & Hdlc).
  unfold built_message, dispatched_message, echo.
  rewrite send_header_frame_kind, Hsize.
  rewrite frame_id_send_header, frame_extended_id_send_header by exact Hid.
  destruct (is_fd frame) eqn:Hfd.
  - change (fd_kind MessageType.CAN_FD_FRAME) with true. cbv iota.
    rewrite flag_error_state_send_header, flag_bitrate_switch_send_header.
    unfold send_payload. rewrite Hfd.
    rewrite firstn_all2 by lia. reflexivity.
  - change (fd_kind MessageType.CAN_FRAME) with false. cbv iota.
    rewrite flag_remote_request_send_header by exact Hfd.
    rewrite send_payload_classic by (try assumption; lia).
    rewrite (firstn_app_length (data frame)) by lia. reflexivity.
Qed.

(** With a whole frame of a known kind in the buffer, the decode path reads
    it from there. *)
Lemma recv_internal_buffered timeout now sent net buf log :
  let header := header_of_bytes buf in
  let rest := skipn sizeof_MessageHeader buf in
  let fetch_size := Z.to_nat (fetch_size_of header) in
  known_kind (frame_kind header) = true ->
  (sizeof_MessageHeader + fetch_size + crc_size (fetch_crc_of header) <= length buf)%nat ->
  _recv_internal timeout now (gateway sent net buf log)
  = (Returns
       (Some (built_message now header (frame_size header) (firstn fetch_size rest)
                (dispatched_message header)),
        false),
     gateway sent net (skipn (crc_size (fetch_crc_of header)) (skipn fetch_size rest)) log).
Proof.
  intros header rest fetch_size Hk Hl.
  rewrite (recv_internal_header timeout now _ (firstn sizeof_MessageHeader buf)
             (gateway sent net rest log)).
  2:{ apply recv_buffer_read_buffered. lia. }
  2:{ rewrite length_firstn. lia. }
  rewrite header_of_bytes_firstn by lia. fold header.
  assert (Hrest : (fetch_size + crc_size (fetch_crc_of header) <= length rest)%nat).
  { unfold rest. rewrite length_skipn. lia. }
  unfold recv_dispatch.
  change ((frame_kind header =? MessageType.CAN_FRAME)
          || (frame_kind header =? MessageType.CAN_FRAME_CRC))
    with (classic_kind (frame_kind header)).
  change ((frame_kind header =? MessageType.CAN_FD_FRAME)
          || (frame_kind header =? MessageType.CAN_FD_FRAME_CRC))
    with (fd_kind (frame_kind header)).
  unfold fetch_size, fetch_size_of, dispatched_message in *.
  unfold known_kind in Hk.
  destruct (classic_kind (frame_kind header)) eqn:Hc.
  - rewrite (classic_kind_not_fd _ Hc) in *.
    now rewrite recv_frame_buffered by exact Hrest.
  - cbn [orb] in Hk. rewrite Hk in *.
    now rewrite recv_frame_buffered by exact Hrest.
Qed.

(** A datagram of 28 to 1024 bytes that arrives on an empty buffer is
    handled as if its bytes had been in the buffer. *)
Lemma recv_internal_arrives_as_buffered timeout now d net sent log :
  (sizeof_MessageHeader <= length d <= 1024)%nat ->
  _recv_internal timeout now (gateway sent (Arrives d :: net) [] log)
  = _recv_internal timeout now (gateway sent net d log).
Proof.
  intros [Hlo Hhi]. rewrite recv_internal_arrives by exact Hlo.
  rewrite (firstn_all2 (n := 1024)) by exact Hhi.
  rewrite (recv_internal_header timeout now (gateway sent net d log)
             (firstn sizeof_MessageHeader d)
             (gateway sent net (skipn sizeof_MessageHeader d) log)).
  - now rewrite header_of_bytes_firstn by lia.
  - apply recv_buffer_read_buffered. exact Hlo.
  - rewrite length_firstn. lia.
Qed.

(** The bytes of a carried frame at the front of the buffer are decoded to
    [echo], and what follows them stays. *)
Lemma recv_internal_carried_buffered timeout now frame tail net sent log :
  carried frame ->
  _recv_internal timeout now (gateway sent net (send_frame frame ++ tail) log)
  = (Returns (Some (echo now frame), false), gateway sent net tail log).
Proof.
  intros Hc.
  destruct (carried_send_header frame Hc) as (Hk & Hcrc & _ & Hfetch & Hp).
  assert (Hsplit : send_frame frame ++ tail
                   = header_bytes (send_header frame) ++ send_payload frame ++ tail)
    by (unfold send_frame; now rewrite <- app_assoc).
  pose proof (header_of_bytes_header_bytes _ (send_payload frame ++ tail)
                (send_header_wf frame)) as Hh.
  rewrite <- Hsplit in Hh.
  pose proof (recv_internal_buffered timeout now sent net (send_frame frame ++ tail) log)
    as H.
  cbv zeta in H. rewrite Hh, Hcrc, Hfetch in H.
  rewrite H; clear H.
  2:{ exact Hk. }
  2:{ rewrite Hsplit, !length_app, length_header_bytes. lia. }
  assert (Hrest : skipn sizeof_MessageHeader (send_frame frame ++ tail)
                  = send_payload frame ++ tail).
  { rewrite Hsplit. apply skipn_app_length, length_header_bytes. }
  rewrite Hrest.
  rewrite (firstn_app_length (send_payload frame)) by reflexivity.
  rewrite (skipn_app_length (send_payload frame)) by reflexivity.
  cbn [skipn]. now rewrite built_message_carried.
Qed.

Lemma length_send_frame_carried (frame : Message) :
  carried frame -> (sizeof_MessageHeader <= length (send_frame frame) <= 283)%nat.
Proof.
  intros Hc. destruct (carried_send_header frame Hc) as (_ & _ & _ & _ & Hp).
  unfold send_frame. rewrite length_app, length_header_bytes.
  change sizeof_MessageHeader with 28%nat. lia.
Qed.

Lemma recv_internal_carried_arrives timeout now frame net sent log :
  carried frame ->
  _recv_internal timeout now (gateway sent (Arrives (send_frame frame) :: net) [] log)
  = (Returns (Some (echo now frame), false), gateway sent net [] log).
Proof.
  intros Hc. pose proof (length_send_frame_carried frame Hc) as Hl.
  rewrite recv_internal_arrives_as_buffered by lia.
  rewrite <- (app_nil_r (send_frame frame)) at 1.
  now apply recv_internal_carried_buffered.
Qed.

(** The datagram of a carried frame, arriving on an empty buffer, is
    decoded in one call to [echo]: identifier, dlc and data come back, with
    is_fd; a classic frame keeps remote_frame, an FD frame keeps error_frame
    and bitrate_switch; extended_id comes back false; the datagram is
    consumed whole, so the buffer is empty again, and nothing is logged. *)
Theorem send_then_recv_echo timeout now frame net sent log :
  carried frame ->
  _recv_internal timeout now (gateway sent (Arrives (send_frame frame) :: net) [] log)
  = (Returns (Some (echo now frame), false), gateway sent net [] log).
Proof. apply recv_internal_carried_arrives. Qed.

Lemma send_then_recv_echo_witness :
  let frame := fd_frame 0x69 true true (bytes_of (repeat 0x5A 20)) in
  _recv_internal None 3%Q (gateway [] [Arrives (send_frame frame)] [] [])
  = (Returns (Some (echo 3%Q frame), false), gateway [] [] [] []).
Proof.
  apply (send_then_recv_echo None 3%Q (fd_frame 0x69 true true (bytes_of (repeat 0x5A 20)))
           [] [] []).
  unfold carried; simpl. lia.
Defined.

(** Two carried frames sent one after the other are read back by two
    calls, in order, each from its own datagram. *)
Theorem two_frames_are_read_in_order timeout now1 now2 frame1 frame2 net sent log :
  carried frame1 -> carried frame2 ->
  (first <- _recv_internal timeout now1 ;;
   second <- _recv_internal timeout now2 ;;
   ret (first, second))
    (gateway sent (Arrives (send_frame frame1) :: Arrives (send_frame frame2) :: net) [] log)
  = (Returns ((Some (echo now1 frame1), false), (Some (echo now2 frame2), false)),
     gateway sent net [] log).
Proof.
  intros H1 H2. unfold bind at 1.
  rewrite (recv_internal_carried_arrives _ _ _ _ _ _ H1). unfold bind.
  rewrite (recv_internal_carried_arrives _ _ _ _ _ _ H2). reflexivity.
Qed.

Lemma two_frames_are_read_in_order_witness :
  let frame1 := classic_frame 0x45 false true (bytes_of [1; 2; 3]) in
  let frame2 := fd_frame 0x69 false true (bytes_of (repeat 0x5A 12)) in
  (first <- _recv_internal (Some 1%Q) 1%Q ;;
   second <- _recv_internal (Some 1%Q) 2%Q ;;
   ret (first, second))
    (gateway [] [Arrives (send_frame frame1); Arrives (send_frame frame2)] [] [])
  = (Returns ((Some (echo 1%Q frame1), false), (Some (echo 2%Q frame2), false)),
     gateway [] [] [] []).
Proof.
  apply (two_frames_are_read_in_order (Some 1%Q) 1%Q 2%Q
           (classic_frame 0x45 false true (bytes_of [1; 2; 3]))
           (fd_frame 0x69 false true (bytes_of (repeat 0x5A 12))) [] [] []);
    unfold carried; simpl; lia.
Defined.

(** One datagram that holds the datagrams of two carried frames back to
    back is read as the two frames by two calls; the second call finds its
    frame in the buffer and makes no receive. *)
Theorem merged_frames_are_read_in_order timeout now1 now2 frame1 frame2 net sent log :
  carried frame1 -> carried frame2 ->
  (first <- _recv_internal timeout now1 ;;
   second <- _recv_internal timeout now2 ;;
   ret (first, second))
    (gateway sent (Arrives (send_frame frame1 ++ send_frame frame2) :: net) [] log)
  = (Returns ((Some (echo now1 frame1), false), (Some (echo now2 frame2), false)),
     gateway sent net [] log).
Proof.
  intros H1 H2.
  pose proof (length_send_frame_carried frame1 H1) as L1.
  pose proof (length_send_frame_carried frame2 H2) as L2.
  unfold bind at 1.
  rewrite recv_internal_arrives_as_buffered by (rewrite length_app; lia).
  rewrite (recv_internal_carried_buffered _ _ _ _ _ _ _ H1). unfold bind.
  rewrite <- (app_nil_r (send_frame frame2)) at 1.
  rewrite (recv_internal_carried_buffered _ _ _ _ _ _ _ H2). reflexivity.
Qed.

Lemma merged_frames_are_read_in_order_witness :
  let frame1 := classic_frame 0x45 false true (bytes_of [1; 2; 3]) in
  let frame2 := fd_frame 0x69 false true (bytes_of (repeat 0x5A 12)) in
  (first <- _recv_internal None 1%Q ;;
   second <- _recv_internal None 2%Q ;;
   ret (first, second))
    (gateway [] [Arrives (send_frame frame1 ++ send_frame frame2)] [] [])
  = (Returns ((Some (echo 1%Q frame1), false), (Some (echo 2%Q frame2), false)),
     gateway [] [] [] []).
Proof.
  apply (merged_frames_are_read_in_order None 1%Q 2%Q
           (classic_frame 0x45 false true (bytes_of [1; 2; 3]))
           (fd_frame 0x69 false true (bytes_of (repeat 0x5A 12))) [] [] []);
    unfold carried; simpl; lia.
Defined.

(** ** Frames that are already buffered *)

(** When the buffer already holds a whole frame of a known kind (header,
    the payload the header asks for, and the trailer the decode path
    reads), the call decodes it from the buffer and leaves the socket alone:
    it returns even without a timeout on a silent socket, and what follows
    the frame stays buffered. *)
Theorem buffered_frame_needs_no_receive timeout now sent net buf log :
  let header := header_of_bytes buf in
  let rest := skipn sizeof_MessageHeader buf in
  let fetch_size := Z.to_nat (fetch_size_of header) in
  known_kind (frame_kind header) = true ->
  (sizeof_MessageHeader + fetch_size + crc_size (fetch_crc_of header) <= length buf)%nat ->
  _recv_internal timeout now (gateway sent net buf log)
  = (Returns
       (Some (built_message now header (frame_size header) (firstn fetch_size rest)
                (dispatched_message header)),
        false),
     gateway sent net (skipn (crc_size (fetch_crc_of header)) (skipn fetch_size rest)) log).
Proof. apply recv_internal_buffered. Qed.

Lemma buffered_frame_needs_no_receive_witness :
  let buf := send_frame (classic_frame 0x45 false false (bytes_of [1; 2; 3]))
             ++ bytes_of [0xFF; 0xFE] in
  let header := header_of_bytes buf in
  let rest := skipn sizeof_MessageHeader buf in
  let fetch_size := Z.to_nat (fetch_size_of header) in
  _recv_internal None 0%Q (gateway [] [] buf [])
  = (Returns
       (Some (built_message 0%Q header (frame_size header) (firstn fetch_size rest)
                (dispatched_message header)),
        false),
     gateway [] [] (skipn (crc_size (fetch_crc_of header)) (skipn fetch_size rest)) []).
Proof.
  apply (buffered_frame_needs_no_receive None 0%Q [] []
           (send_frame (classic_frame 0x45 false false (bytes_of [1; 2; 3]))
            ++ bytes_of [0xFF; 0xFE]) []).
  - reflexivity.
  - vm_compute. repeat constructor.
Defined.

(** ** Every outcome of the decode path *)

Lemma recv_buffer_read_inv size timeout self r self' :
  recv_buffer_read size timeout self = (r, self') ->
  _send_socket self' = _send_socket self /\ logging self' = logging self /\
  match r with
  | Returns bs => (length bs <= size)%nat
  | Raises e => (e = TimeoutError /\ timed timeout) \/ (e = BlockingIOError /\ polling timeout)
  | Blocks => timeout = None
  end.
Proof.
  unfold recv_buffer_read.
  destruct (read size timeout (_recv_buffer self)) as [o reader] eqn:Hr.
  intros H; inversion H; subst; clear H. cbn [_send_socket logging].
  split; [reflexivity|]. split; [reflexivity|].
  unfold read in Hr.
  destruct (length (_buffer (_recv_buffer self)) <? size)%nat.
  - destruct (socket_recv 1024 timeout (_socket (_recv_buffer self)))
      as [[d | e |] net'] eqn:Hs; inversion Hr; subst; clear Hr.
    + rewrite length_firstn. lia.
    + exact (socket_recv_raises _ _ _ _ _ Hs).
    + exact (socket_recv_blocks _ _ _ _ Hs).
  - inversion Hr; subst. rewrite length_firstn. lia.
Qed.

Lemma recv_frame_inv timeout now header fetch_crc frame_size message self r self' :
  recv_frame timeout now header fetch_crc (fetch_size_of header) frame_size message self
  = (r, self') ->
  _send_socket self' = _send_socket self /\ logging self' = logging self /\
  match r with
  | Returns res =>
      exists payload, (length payload <= Z.to_nat (fetch_size_of header))%nat /\
                      res = (Some (built_message now header frame_size payload message), false)
  | Raises e => (e = TimeoutError /\ timed timeout) \/ (e = BlockingIOError /\ polling timeout)
  | Blocks => timeout = None
  end.
Proof.
  unfold recv_frame, bind at 1.
  destruct (recv_buffer_read (Z.to_nat (fetch_size_of header)) timeout self)
    as [[payload | e |] self1] eqn:H1;
    apply recv_buffer_read_inv in H1; destruct H1 as (Hs1 & Hl1 & H1).
  2,3: intros H; inversion H; subst; auto.
  destruct fetch_crc; unfold bind, ret.
  - destruct (recv_buffer_read (Z.to_nat FETCH_SIZE_OPTIONAL_CRC) timeout self1)
      as [[crc | e |] self2] eqn:H2;
      apply recv_buffer_read_inv in H2; destruct H2 as (Hs2 & Hl2 & H2);
      intros H; inversion H; subst; (split; [congruence|]); (split; [congruence|]); auto.
    exists payload. auto.
  - intros H; inversion H; subst. split; [exact Hs1|]. split; [exact Hl1|].
    exists payload. auto.
Qed.

Lemma recv_internal_inv timeout now self r self' :
  _recv_internal timeout now self = (r, self') ->
  _send_socket self' = _send_socket self /\ recv_outcome timeout now self r self'.
Proof.
  unfold _recv_internal, try_except_TimeoutError, bind.
  destruct (recv_buffer_read sizeof_MessageHeader timeout self)
    as [[header_data | e |] self1] eqn:H1;
    apply recv_buffer_read_inv in H1; destruct H1 as (Hs1 & Hl1 & H1).
  - unfold lift, from_buffer_copy.
    destruct (length header_data <? sizeof_MessageHeader)%nat.
    + intros H; inversion H; subst. split; [exact Hs1|]. now constructor.
    + set (header := header_of_bytes header_data).
      assert (Hwf : header_wf header) by apply header_of_bytes_wf.
      unfold recv_dispatch.
      change ((frame_kind header =? MessageType.CAN_FRAME)
              || (frame_kind header =? MessageType.CAN_FRAME_CRC))
        with (classic_kind (frame_kind header)).
      change ((frame_kind header =? MessageType.CAN_FD_FRAME)
              || (frame_kind header =? MessageType.CAN_FD_FRAME_CRC))
        with (fd_kind (frame_kind header)).
      destruct (classic_kind (frame_kind header)) eqn:Hc;
        [|destruct (fd_kind (frame_kind header)) eqn:Hf].
      * pose proof (classic_kind_not_fd _ Hc) as Hf.
        replace FETCH_SIZE_STANDARD_FRAME with (fetch_size_of header)
          by (unfold fetch_size_of; now rewrite Hf).
        intros H. apply recv_frame_inv in H. destruct H as (Hs & Hl & H).
        split; [congruence|].
        destruct r as [res | e |].
        -- destruct H as (payload & Hp & ->).
           replace (set_is_remote_frame (flag_remote_request_frame header) Message_default)
             with (dispatched_message header)
             by (unfold dispatched_message; now rewrite Hf).
           constructor; try assumption; try congruence.
           unfold known_kind. now rewrite Hc.
        -- destruct H as [[-> Ht] | [-> Ht]]; constructor; first [exact Ht | congruence].
        -- constructor; [exact H | congruence].
      * replace (frame_size header) with (fetch_size_of header) at 1
          by (unfold fetch_size_of; now rewrite Hf).
        intros H. apply recv_frame_inv in H. destruct H as (Hs & Hl & H).
        split; [congruence|].
        destruct r as [res | e |].
        -- destruct H as (payload & Hp & ->).
           replace (set_bitrate_switch (flag_activated_bitrate_switch header)
                      (set_is_error_frame (flag_error_state_indicator header)
                         (set_is_fd true Message_default)))
             with (dispatched_message header)
             by (unfold dispatched_message; now rewrite Hf).
           constructor; try assumption; try congruence.
           unfold known_kind. now rewrite Hc, Hf.
        -- destruct H as [[-> Ht] | [-> Ht]]; constructor; first [exact Ht | congruence].
        -- constructor; [exact H | congruence].
      * unfold logging_warning, ret. intros H; inversion H; subst.
        cbn [_send_socket logging]. split; [exact Hs1|].
        apply (recv_unknown_kind _ _ _ (frame_kind header)).
        -- unfold known_kind. now rewrite Hc, Hf.
        -- cbn [logging]. now rewrite Hl1.
  - destruct H1 as [[-> Ht] | [-> Ht]]; unfold ret; intros H; inversion H; subst;
      (split; [exact Hs1|]).
    + now apply recv_header_timeout.
    + now apply recv_would_block.
  - intros H; inversion H; subst. split; [exact Hs1|]. now constructor.
Qed.

Lemma frame_id_range (h : MessageHeader) : 0 <= frame_id h < 2 ^ 28.
Proof.
  unfold frame_id. change MASK_CAN_ID with (Z.ones 28).
  rewrite Z.land_ones by lia. apply Z.mod_pos_bound. lia.
Qed.

(** Whenever the decode path returns a frame, whatever was buffered and
    whatever the socket delivered: the second component of the result is
    False; the timestamp is the clock reading of the call; the identifier
    lies below 2^28 and dlc in 0..255; the data are never longer than dlc; a
    classic frame has at most eight data bytes and neither error_frame nor
    bitrate_switch; an FD frame is never a remote frame; and the call has
    logged nothing and sent nothing. *)
Theorem decoded_frame_invariants timeout now self msg filtered self' :
  _recv_internal timeout now self = (Returns (Some msg, filtered), self') ->
  filtered = false /\
  timestamp msg = now /\
  0 <= arbitration_id msg < 2 ^ 28 /\
  0 <= dlc msg < 256 /\
  Z.of_nat (length (data msg)) <= dlc msg /\
  (is_fd msg = false ->
   (length (data msg) <= 8)%nat /\ is_error_frame msg = false /\
   bitrate_switch msg = false) /\
  (is_fd msg = true -> is_remote_frame msg = false) /\
  logging self' = logging self /\
  _send_socket self' = _send_socket self.
Proof.
  intros H. apply recv_internal_inv in H. destruct H as [Hs H].
  inversion H as [header payload s Hwf Hk Hp Hl Hr Hs' | | | | | | ]; subst; clear H.
  destruct Hwf as (_ & _ & _ & _ & _ & _ & Hsize & _ & _).
  pose proof (frame_id_range header) as Hid.
  cbn [built_message timestamp arbitration_id dlc data is_fd is_remote_frame
       is_error_frame bitrate_switch set_data set_dlc set_is_extended_id
       set_arbitration_id set_timestamp].
  rewrite length_firstn.
  assert (Hfetch : 0 <= fetch_size_of header).
  { unfold fetch_size_of, FETCH_SIZE_STANDARD_FRAME.
    destruct (fd_kind (frame_kind header)); lia. }
  repeat apply conj; try reflexivity; try assumption; try lia.
  - unfold dispatched_message, fetch_size_of, FETCH_SIZE_STANDARD_FRAME in *.
    destruct (fd_kind (frame_kind header)); cbn; intros Hfd;
      [discriminate Hfd|]. repeat split. lia.
  - unfold dispatched_message. destruct (fd_kind (frame_kind header)); cbn; intros Hfd;
      [reflexivity | discriminate Hfd].
Qed.

Lemma decoded_frame_invariants_witness :
  let msg := mkMessage 7%Q 0x45 false false false false false 5
               (bytes_of [0x00; 0x01; 0x11; 0x01; 0x22]) in
  false = false /\
  timestamp msg = 7%Q /\
  0 <= arbitration_id msg < 2 ^ 28 /\
  0 <= dlc msg < 256 /\
  Z.of_nat (length (data msg)) <= dlc msg /\
  (is_fd msg = false ->
   (length (data msg) <= 8)%nat /\ is_error_frame msg = false /\
   bitrate_switch msg = false) /\
  (is_fd msg = true -> is_remote_frame msg = false) /\
  logging (gateway [] [] [] []) = [] /\
  _send_socket (gateway [] [] [] []) = [].
Proof.
  apply (decoded_frame_invariants (Some 1%Q) 7%Q
           (gateway [] [Arrives (send_frame (scenario_A true))] [] [])
           (mkMessage 7%Q 0x45 false false false false false 5
              (bytes_of [0x00; 0x01; 0x11; 0x01; 0x22]))
           false (gateway [] [] [] [])).
  vm_compute. reflexivity.
Defined.

(** What each outcome of [_recv_internal] tells, in any state and for every
    timeout [settimeout] takes.  The second component of a result is always
    False.  A frame or an exception comes with an unchanged log.  "No frame"
    comes either from a header read that timed out, under a timeout of some
    seconds and with an unchanged log, or with exactly one more warning,
    about an unknown kind.  [TimeoutError] leaves the call only under a
    timeout of some seconds, [BlockingIOError] only under the timeout 0, and
    the call waits for ever only without a timeout.  No call writes to the
    send socket. *)
Theorem recv_internal_outcomes timeout now self :
  timeout_in_domain timeout ->
  let r := fst (_recv_internal timeout now self) in
  let self' := snd (_recv_internal timeout now self) in
  _send_socket self' = _send_socket self /\
  (forall res, r = Returns res -> snd res = false) /\
  (forall msg filtered, r = Returns (Some msg, filtered) -> logging self' = logging self) /\
  (forall filtered, r = Returns (None, filtered) ->
     ((exists q, timeout = Some q /\ (0 < q)%Q) /\ logging self' = logging self) \/
     (exists kind, known_kind kind = false /\
                   logging self'
                   = logging self
                     ++ [("unknown frame type received: " ++ hex kind)%string])) /\
  (forall e, r = Raises e -> logging self' = logging self) /\
  (r = Raises TimeoutError -> exists q, timeout = Some q /\ (0 < q)%Q) /\
  (r = Raises BlockingIOError -> exists q, timeout = Some q /\ (q == 0)%Q) /\
  (r = Blocks -> timeout = None /\ logging self' = logging self).
Proof.
  intros Hd. cbv zeta. destruct (_recv_internal timeout now self) as [r self'] eqn:H.
  apply recv_internal_inv in H. destruct H as [Hs H]. cbn [fst snd].
  split; [exact Hs|].
  inversion H as [header payload s Hwf Hk Hp Hl | s Ht Hl | kind s Hk Hl | s Hl
                  | s Ht Hl | s Ht Hl | s Ht Hl]; subst; clear H.
  all: repeat apply conj.
  all: try (intros; discriminate).
  all: try (intros; exact Hl).
  all: try (intros res E; inversion E; reflexivity).
  - intros filtered _. left. split; [now apply timed_positive | exact Hl].
  - intros filtered _. right. eauto.
  - intros _. now apply timed_positive.
  - intros _. now apply polling_zero.
  - intros _. split; [reflexivity | exact Hl].
Qed.

Lemma recv_internal_outcomes_witness :
  let r := fst (_recv_internal (Some 1%Q) 0%Q (gateway [] [Quiet] [] [])) in
  let self' := snd (_recv_internal (Some 1%Q) 0%Q (gateway [] [Quiet] [] [])) in
  _send_socket self' = _send_socket (gateway [] [Quiet] [] []) /\
  (forall res, r = Returns res -> snd res = false) /\
  (forall msg filtered, r = Returns (Some msg, filtered) ->
     logging self' = logging (gateway [] [Quiet] [] [])) /\
  (forall filtered, r = Returns (None, filtered) ->
     ((exists q, Some 1%Q = Some q /\ (0 < q)%Q) /\
      logging self' = logging (gateway [] [Quiet] [] [])) \/
     (exists kind, known_kind kind = false /\
                   logging self'
                   = logging (gateway [] [Quiet] [] [])
                     ++ [("unknown frame type received: " ++ hex kind)%string])) /\
  (forall e, r = Raises e -> logging self' = logging (gateway [] [Quiet] [] [])) /\
  (r = Raises TimeoutError -> exists q, Some 1%Q = Some q /\ (0 < q)%Q) /\
  (r = Raises BlockingIOError -> exists q, Some 1%Q = Some q /\ (q == 0)%Q) /\
  (r = Blocks -> Some 1%Q = None /\ logging self' = logging (gateway [] [Quiet] [] [])).
Proof.
  apply (recv_internal_outcomes (Some 1%Q) 0%Q (gateway [] [Quiet] [] [])).
  vm_compute. discriminate.
Defined.

(** ** Headers that do not come, or come short *)

Lemma recv_internal_quiet q now sent net buf log :
  (length buf < sizeof_MessageHeader)%nat ->
  _recv_internal (Some q) now (gateway sent (Quiet :: net) buf log)
  = (if nonblocking q then Raises BlockingIOError else Returns (None, false),
     gateway sent net buf log) /\
  _recv_internal (Some q) now (gateway sent [] buf log)
  = (if nonblocking q then Raises BlockingIOError else Returns (None, false),
     gateway sent [] buf log).
Proof.
  intros Hl. destruct (read_quiet sizeof_MessageHeader q net buf Hl) as [H1 H2].
  unfold _recv_internal, try_except_TimeoutError, bind, recv_buffer_read, gateway.
  cbn [_recv_buffer _send_socket logging].
  rewrite H1, H2. unfold recv_failure.
  destruct (nonblocking q); split; reflexivity.
Qed.

(** When no datagram comes for the header.  Under a timeout of some
    seconds the header read times out and the call answers "no frame"; it
    keeps what was buffered, so the bytes of a header that came in part are
    still there for the next call, and logs nothing.  Under the timeout 0
    the receive raises [BlockingIOError], which [except TimeoutError] does
    not catch: the exception leaves [_recv_internal], the buffer kept as
    well. *)
Theorem header_timeout_keeps_buffer q now sent net buf log :
  (length buf < sizeof_MessageHeader)%nat ->
  ((0 < q)%Q ->
   _recv_internal (Some q) now (gateway sent (Quiet :: net) buf log)
   = (Returns (None, false), gateway sent net buf log) /\
   _recv_internal (Some q) now (gateway sent [] buf log)
   = (Returns (None, false), gateway sent [] buf log)) /\
  ((q == 0)%Q ->
   _recv_internal (Some q) now (gateway sent (Quiet :: net) buf log)
   = (Raises BlockingIOError, gateway sent net buf log) /\
   _recv_internal (Some q) now (gateway sent [] buf log)
   = (Raises BlockingIOError, gateway sent [] buf log)).
Proof.
  intros Hl. destruct (recv_internal_quiet q now sent net buf log Hl) as [H1 H2].
  split; intros Hq.
  - rewrite (nonblocking_of_positive q Hq) in H1, H2. split; assumption.
  - rewrite (nonblocking_of_zero q Hq) in H1, H2. split; assumption.
Qed.

Lemma header_timeout_keeps_buffer_witness :
  (_recv_internal (Some 1%Q) 0%Q
     (gateway [] [Quiet; Arrives (bytes_of [9])] (bytes_of [1; 2; 3]) [])
   = (Returns (None, false), gateway [] [Arrives (bytes_of [9])] (bytes_of [1; 2; 3]) []) /\
   _recv_internal (Some 1%Q) 0%Q (gateway [] [] (bytes_of [1; 2; 3]) [])
   = (Returns (None, false), gateway [] [] (bytes_of [1; 2; 3]) [])) /\
  (_recv_internal (Some 0%Q) 0%Q
     (gateway [] [Quiet; Arrives (bytes_of [9])] (bytes_of [1; 2; 3]) [])
   = (Raises BlockingIOError, gateway [] [Arrives (bytes_of [9])] (bytes_of [1; 2; 3]) []) /\
   _recv_internal (Some 0%Q) 0%Q (gateway [] [] (bytes_of [1; 2; 3]) [])
   = (Raises BlockingIOError, gateway [] [] (bytes_of [1; 2; 3]) [])).
Proof.
  split.
  - apply (proj1 (header_timeout_keeps_buffer 1%Q 0%Q [] [Arrives (bytes_of [9])]
                    (bytes_of [1; 2; 3]) [] ltac:(vm_compute; lia))).
    reflexivity.
  - apply (proj2 (header_timeout_keeps_buffer 0%Q 0%Q [] [Arrives (bytes_of [9])]
                    (bytes_of [1; 2; 3]) [] ltac:(vm_compute; lia))).
    reflexivity.
Defined.

(** A datagram that leaves the buffer below 28 bytes makes the call raise
    [ValueError], and the bytes read so far are gone: the buffer is empty
    afterwards. *)
Theorem short_header_raises_ValueError timeout now sent d net buf log :
  (length buf + length d < sizeof_MessageHeader)%nat ->
  _recv_internal timeout now (gateway sent (Arrives d :: net) buf log)
  = (Raises ValueError, gateway sent net [] log).
Proof.
  intros Hl. change sizeof_MessageHeader with 28%nat in *.
  unfold _recv_internal, try_except_TimeoutError, bind.
  change sizeof_MessageHeader with 28%nat.
  rewrite recv_buffer_read_arrives by lia.
  assert (Hcut : firstn 1024 d = d) by (apply firstn_all2; lia).
  rewrite Hcut.
  rewrite firstn_all2, skipn_all2 by (rewrite length_app; lia).
  unfold lift, from_buffer_copy. change sizeof_MessageHeader with 28%nat.
  destruct (Nat.ltb_spec (length (buf ++ d)) 28) as [_ | Hge];
    [reflexivity | rewrite length_app in Hge; lia].
Qed.

Lemma short_header_raises_ValueError_witness :
  _recv_internal (Some 1%Q) 0%Q
    (gateway [] [Arrives (bytes_of (repeat 0 10))] (bytes_of [1; 2; 3]) [])
  = (Raises ValueError, gateway [] [] [] []).
Proof.
  apply (short_header_raises_ValueError (Some 1%Q) 0%Q [] (bytes_of (repeat 0 10)) []
           (bytes_of [1; 2; 3]) []).
  vm_compute; lia.
Defined.

(** ** The trailer is not looked at *)

(** A CAN_FD_FRAME_CRC datagram (header, frame_size payload bytes, four
    trailer bytes) is decoded to the same frame whatever the trailer holds,
    the payload being its data, and the trailer is consumed with it. *)
Theorem crc_trailer_is_not_validated timeout now header payload crc net sent log :
  header_wf header ->
  frame_kind header = MessageType.CAN_FD_FRAME_CRC ->
  Z.of_nat (length payload) = frame_size header ->
  length crc = 4%nat ->
  _recv_internal timeout now
    (gateway sent (Arrives (header_bytes header ++ payload ++ crc) :: net) [] log)
  = (Returns (Some (built_message now header (frame_size header) payload
                      (dispatched_message header)), false),
     gateway sent net [] log) /\
  data (built_message now header (frame_size header) payload (dispatched_message header))
  = payload.
Proof.
  intros Hwf Hk Hp Hc.
  pose proof Hwf as (_ & _ & _ & _ & _ & _ & Hsize & _ & _).
  set (d := header_bytes header ++ payload ++ crc).
  assert (Hh : header_of_bytes d = header) by now apply header_of_bytes_header_bytes.
  assert (Hl : length d = (28 + length payload + 4)%nat).
  { unfold d. rewrite !length_app, length_header_bytes, Hc.
    change sizeof_MessageHeader with 28%nat. lia. }
  assert (Hcut : firstn 1024 d = d) by (apply firstn_all2; lia).
  assert (Hfetch : Z.to_nat (fetch_size_of header) = length payload).
  { unfold fetch_size_of. rewrite Hk. change (fd_kind MessageType.CAN_FD_FRAME_CRC) with true.
    cbv iota. lia. }
  assert (Hcrc : crc_size (fetch_crc_of header) = 4%nat).
  { rewrite fetch_crc_of_spec, Hk. reflexivity. }
  pose proof (recv_internal_datagram timeout now d net sent log) as H.
  cbv zeta in H. rewrite Hh, Hcut, Hcrc, Hfetch, Hl in H.
  split.
  - rewrite H; clear H.
    2:{ rewrite Hk. reflexivity. }
    2:{ change sizeof_MessageHeader with 28%nat. lia. }
    assert (Hrest : skipn sizeof_MessageHeader d = payload ++ crc)
      by (unfold d; apply skipn_app_length, length_header_bytes).
    rewrite Hrest.
    rewrite (firstn_app_length payload) by reflexivity.
    rewrite (skipn_app_length payload) by reflexivity.
    rewrite skipn_all2 by lia. reflexivity.
  - cbn [built_message data set_data]. apply firstn_all2. lia.
Qed.

Lemma crc_trailer_is_not_validated_witness :
  let header := device_header 36 MessageType.CAN_FD_FRAME_CRC 4 0x20 0x69 in
  let payload := bytes_of [1; 2; 3; 4] in
  let crc := bytes_of [0; 0; 0; 0] in
  _recv_internal (Some 1%Q) 0%Q
    (gateway [] [Arrives (header_bytes header ++ payload ++ crc)] [] [])
  = (Returns (Some (built_message 0%Q header (frame_size header) payload
                      (dispatched_message header)), false),
     gateway [] [] [] []) /\
  data (built_message 0%Q header (frame_size header) payload (dispatched_message header))
  = payload.
Proof.
  apply (crc_trailer_is_not_validated (Some 1%Q) 0%Q
           (device_header 36 MessageType.CAN_FD_FRAME_CRC 4 0x20 0x69)
           (bytes_of [1; 2; 3; 4]) (bytes_of [0; 0; 0; 0]) [] [] []).
  - vm_compute; repeat apply conj; first [reflexivity | discriminate].
  - reflexivity.
  - reflexivity.
  - reflexivity.
Defined.

(** ** The summary of a header *)

Lemma string_app_assoc (a b c : string) :
  ((a ++ b) ++ c = a ++ b ++ c)%string.
Proof. induction a as [|x a IH]; cbn [String.append]; [reflexivity | now rewrite IH]. Qed.

(** The summary of the header that [send] builds for a frame with an
    identifier below 2^28 and a dlc in 0..255 is "ID=<hex id> DLC=<dlc>":
    it never says EXTENDED, whether the frame has is_extended_id or not. *)
Theorem repr_of_sent_header (frame : Message) :
  0 <= arbitration_id frame < 2 ^ 28 ->
  0 <= dlc frame < 256 ->
  __repr__ (send_header frame)
  = ("ID=" ++ hex (arbitration_id frame) ++ " DLC=" ++ str (dlc frame))%string.
Proof.
  intros Hid Hdlc. unfold __repr__.
  rewrite frame_extended_id_send_header, frame_id_send_header by exact Hid.
  rewrite send_header_frame_size. unfold c_uint. rewrite Z.mod_small by lia.
  cbn [String.concat]. rewrite string_app_assoc. reflexivity.
Qed.

Lemma repr_of_sent_header_witness :
  __repr__ (send_header (scenario_A true)) = "ID=0x45 DLC=5"%string.
Proof.
  apply (repr_of_sent_header (scenario_A true)); simpl; lia.
Defined.
